(** * KrishiMitra AI: the rule-based NLU and RAG pipeline of [src/app.py]

    A shallow embedding of the two classes of the module,
    [IndicBERTProcessor] (language detection, intent scoring, entity
    extraction) and [RAGEngine] (knowledge base, context retrieval,
    per-intent response builders), followed by the properties proved
    about them.

    Conventions of the embedding.
    - A Python [str] is a sequence of Unicode code points: [pystr].
    - A Python [float] is an IEEE-754 binary64 value: [spec_float] with
      [prec = 53] and [emax = 1024], computed with the operations of
      [SpecFloat] (round to nearest, ties to even).
    - A [dict] whose keys are literals of the program is a [gmap] keyed
      by [string]; a [dict] that is iterated in insertion order is an
      association list.
    - What belongs to the Python runtime and not to the repository
      ([str.lower] beyond ASCII, the Unicode classes behind [\d] and
      [\s], [repr] of a float) is an interface, [PyRuntime]. *)

From Stdlib Require Import ZArith NArith List Bool Ascii String Lia.
From Stdlib Require Import DecimalString.
From Stdlib Require Import Floats.SpecFloat Floats.PrimFloat Floats.FloatOps.
From stdpp Require Import base option list gmap strings fin_maps.

#[local] Set Warnings "-inexact-float".
Local Open Scope N_scope.

(** ** Python strings *)

Definition pystr : Type := list N.

(** An ASCII literal of the source, as code points. *)
Definition py (x : string) : pystr :=
  map N_of_ascii (list_ascii_of_string x).

Definition in_range (lo hi c : N) : bool := (lo <=? c) && (c <=? hi).

Definition is_ascii (c : N) : bool := c <? 128.

(** [str.lower] on one ASCII code point: [A-Z] to [a-z]. *)
Definition ascii_lower (c : N) : N :=
  if in_range 65 90 c then c + 32 else c.

Definition ascii_upper (c : N) : N :=
  if in_range 97 122 c then c - 32 else c.

Definition ascii_alpha (c : N) : bool := in_range 65 90 c || in_range 97 122 c.

(** [\d] and [\s] restricted to ASCII: [0-9], and the ASCII white space
    of [str.isspace] (tab to carriage return, the four separators
    0x1c-0x1f, and the blank). *)
Definition ascii_digit (c : N) : bool := in_range 48 57 c.
Definition ascii_space (c : N) : bool :=
  in_range 9 13 c || in_range 28 31 c || (c =? 32).

(** [str.title] for ASCII text: the first letter of every run of letters
    in upper case, the others in lower case. *)
Fixpoint title_from (prev_cased : bool) (s : pystr) : pystr :=
  match s with
  | [] => []
  | c :: s' =>
      (if prev_cased then ascii_lower c else ascii_upper c)
        :: title_from (ascii_alpha c) s'
  end.
Definition title (s : pystr) : pystr := title_from false s.

(** [sub in s] for strings. *)
Fixpoint is_prefix (p s : pystr) : bool :=
  match p, s with
  | [], _ => true
  | _ :: _, [] => false
  | a :: p', b :: s' => (a =? b) && is_prefix p' s'
  end.

Fixpoint contains (sub s : pystr) : bool :=
  is_prefix sub s ||
  match s with
  | [] => false
  | _ :: s' => contains sub s'
  end.

(** [str(n)] of an [int]. *)
Definition str_of_Z (z : Z) : pystr := py (NilZero.string_of_int (Z.to_int z)).

(** ** The part of the Python runtime the module relies on *)

Class PyRuntime := {
  (** [str.lower]; on ASCII text it is [ascii_lower] on every character *)
  str_lower : pystr -> pystr;
  str_lower_ascii : forall s,
    forallb is_ascii s = true -> str_lower s = map ascii_lower s;
  (** the class [\d] of [re] on [str] patterns (Unicode decimal digits) *)
  re_digit : N -> bool;
  re_digit_ascii : forall c, is_ascii c = true -> re_digit c = ascii_digit c;
  (** the class [\s] of [re] on [str] patterns (Unicode white space) *)
  re_space : N -> bool;
  re_space_ascii : forall c, is_ascii c = true -> re_space c = ascii_space c;
  (** [repr] of a float, as an f-string prints it *)
  float_repr : spec_float -> pystr
}.

(** ** Python floats *)

Definition prec : Z := 53.
Definition emax : Z := 1024.

Definition fadd : spec_float -> spec_float -> spec_float := SFadd prec emax.
Definition fmul : spec_float -> spec_float -> spec_float := SFmul prec emax.
Definition flt : spec_float -> spec_float -> bool := SFltb.
Definition feq : spec_float -> spec_float -> bool := SFeqb.

(** [float(n)] of an [int], as [matches * 0.3] converts its left
    operand: correctly rounded, and exact below 2^53. (Python raises
    [OverflowError] from 2^1024 on, where this gives the infinity; a
    count of matches is at most the length of the text.) *)
Definition float_of_Z (n : Z) : spec_float := binary_normalize prec emax n 0 false.

Definition f0 : spec_float := S754_zero false.
Definition f0_3 : spec_float := Eval vm_compute in Prim2SF 0.3%float.
Definition f0_5 : spec_float := Eval vm_compute in Prim2SF 0.5%float.
Definition f0_8 : spec_float := Eval vm_compute in Prim2SF 0.8%float.
Definition f0_85 : spec_float := Eval vm_compute in Prim2SF 0.85%float.
Definition f0_9 : spec_float := Eval vm_compute in Prim2SF 0.9%float.
Definition f1 : spec_float := Eval vm_compute in Prim2SF 1.0%float.

(** [max(iterable)] and [max(iterable, key=...)]: the first item is the
    candidate and a later item replaces it only when it compares
    strictly greater; [None] stands for the [ValueError] on an empty
    iterable. *)
Definition py_max_by {A} (key : A -> spec_float) (l : list A) : option A :=
  match l with
  | [] => None
  | x :: l' =>
      Some (fold_left (fun best y => if flt (key best) (key y) then y else best) l' x)
  end.

Definition py_max (l : list spec_float) : option spec_float := py_max_by id l.

(** [min(a, b)]: [b] only when it compares strictly less than [a]. *)
Definition py_min2 (a b : spec_float) : spec_float := if flt b a then b else a.

(** ** Regular expressions of the module

    Every pattern of the intent, crop and location tables is an
    alternation of literal strings: [pattern] lists the alternatives in
    the order of the source. *)

Definition pattern : Type := list pystr.

(** Length of the match of the pattern anchored at the head of [s]: the
    alternatives are tried from left to right and the first that
    matches is taken. *)
Fixpoint match_here (p : pattern) (s : pystr) : option nat :=
  match p with
  | [] => None
  | alt :: p' => if is_prefix alt s then Some (length alt) else match_here p' s
  end.

(** [re.search(p, s)] as a truth value. *)
Fixpoint re_search (p : pattern) (s : pystr) : bool :=
  match match_here p s with
  | Some _ => true
  | None => match s with [] => false | _ :: s' => re_search p s' end
  end.

(** [len(re.findall(p, s))]: matches are found from left to right and do
    not overlap; [skip] counts the characters of the last match that are
    still to be passed over. *)
Fixpoint findall_from (p : pattern) (skip : nat) (s : pystr) : nat :=
  match s with
  | [] => 0%nat
  | _ :: s' =>
      match skip with
      | S k => findall_from p k s'
      | O =>
          match match_here p s with
          | Some len => S (findall_from p (pred len) s')
          | None => findall_from p 0 s'
          end
      end
  end.

Definition findall_count (p : pattern) (s : pystr) : nat := findall_from p 0 s.


(** The quantity pattern [(\d+)\s*(kg|quintal|ton|acre|hectare)],
    matched the way a backtracking engine does: [\d+] and [\s*] are
    greedy and give characters back when what follows fails. The two
    character classes are arguments, so that the matcher can be run with
    the ASCII classes as well as with those of the runtime. *)
Section QuantityPattern.
Variables is_digit is_space : N -> bool.

Definition units : pattern :=
  [py "kg"; py "quintal"; py "ton"; py "acre"; py "hectare"].

(** group 2 anchored at the head of [s] *)
Fixpoint match_unit (us : pattern) (s : pystr) : option pystr :=
  match us with
  | [] => None
  | u :: us' => if is_prefix u s then Some u else match_unit us' s
  end.

(** [\s*(kg|...)] at the head of [s] *)
Fixpoint spaces_unit (s : pystr) : option pystr :=
  match s with
  | [] => match_unit units []
  | c :: s' =>
      if is_space c then
        match spaces_unit s' with
        | Some u => Some u
        | None => match_unit units s
        end
      else match_unit units s
  end.

(** [\d*\s*(kg|...)] at the head of [s]: the digits taken and group 2 *)
Fixpoint digits_spaces_unit (s : pystr) : option (pystr * pystr) :=
  match s with
  | [] => option_map (pair []) (spaces_unit [])
  | c :: s' =>
      if is_digit c then
        match digits_spaces_unit s' with
        | Some (ds, u) => Some (c :: ds, u)
        | None => option_map (pair []) (spaces_unit s)
        end
      else option_map (pair []) (spaces_unit s)
  end.

(** the whole pattern at the head of [s]: groups 1 and 2 *)
Definition quantity_here (s : pystr) : option (pystr * pystr) :=
  match s with
  | [] => None
  | c :: s' =>
      if is_digit c then
        match digits_spaces_unit s' with
        | Some (ds, u) => Some (c :: ds, u)
        | None => None
        end
      else None
  end.

(** [re.search]: the match at the leftmost position that has one *)
Fixpoint quantity_search (s : pystr) : option (pystr * pystr) :=
  match quantity_here s with
  | Some g => Some g
  | None => match s with [] => None | _ :: s' => quantity_search s' end
  end.
End QuantityPattern.

(** ** class IndicBERTProcessor *)

Module IndicBERTProcessor.

Definition supported_languages : list string :=
  ["hi"; "en"; "pa"; "bn"; "te"; "mr"; "gu"; "ta"]%string.

(** [self.intent_patterns], in the order of the dict literal. *)
Definition intent_patterns : list (string * list pattern) :=
  [ ("weather"%string,
      [ [py "barish"; py "rain"; py "mausam"; py "weather"; py "paani";
         py "water"; py "baarish"];
        [py "humidity"; py "temperature"; py "wind"; py "climate"] ]);
    ("irrigation"%string,
      [ [py "sinchai"; py "irrigation"; py "paani dena"; py "watering"];
        [py "kab paani de"; py "when to water"; py "irrigation timing"] ]);
    ("market"%string,
      [ [py "mandi"; py "price"; py "rate"; py "bhav"; py "market"; py "sell";
         py "bechna"];
        [py "commodity price"; py "market rate"; py "selling price"] ]);
    ("fertilizer"%string,
      [ [py "khad"; py "fertilizer"; py "urvarak"; py "nutrients"; py "manure"];
        [py "NPK"; py "urea"; py "phosphate"; py "potash"; py "organic"] ]);
    ("pest"%string,
      [ [py "keeda"; py "pest"; py "insect"; py "disease"; py "bimari";
         py "fungus"];
        [py "crop disease"; py "plant protection"; py "pesticide"] ]);
    ("scheme"%string,
      [ [py "yojana"; py "scheme"; py "subsidy"; py "government"; py "sarkar"];
        [py "loan"; py "credit"; py "insurance"; py "financial help"] ]);
    ("crop"%string,
      [ [py "fasal"; py "crop"; py "bija"; py "seed"; py "planting";
         py "cultivation"];
        [py "sowing"; py "harvesting"; py "crop calendar"; py "variety"] ]) ].

(** [detect_language]: Devanagari code points (U+0900-U+097F) against
    ASCII letters. *)
Definition hindi_chars (text : pystr) : list N := List.filter (in_range 2304 2431) text.
Definition english_chars (text : pystr) : list N := List.filter ascii_alpha text.

Definition detect_language (text : pystr) : string :=
  if (length (english_chars text) <? length (hindi_chars text))%nat then "hi"
  else if (0 <? length (english_chars text))%nat then "en"
  else "hi".

Section WithRuntime.
Context `{PyRuntime}.

(** the inner loop of [extract_intent]: [score += matches * 0.3] over
    the patterns of one intent, from [score = 0] *)
Definition intent_score (patterns : list pattern) (text_lower : pystr) : spec_float :=
  fold_left
    (fun score p =>
       fadd score (fmul (float_of_Z (Z.of_nat (findall_count p text_lower))) f0_3))
    patterns f0.

(** the dict [intent_scores], in insertion order *)
Definition intent_scores (text : pystr) : list (string * spec_float) :=
  let text_lower := str_lower text in
  map (fun ip => (fst ip, intent_score (snd ip) text_lower)) intent_patterns.

(** [extract_intent]: the two [None] cases of the [match] are the
    empty dict of [not intent_scores]. *)
Definition extract_intent (text : pystr) : string * spec_float :=
  let scores := intent_scores text in
  match py_max (map snd scores), py_max_by snd scores with
  | Some top, Some best =>
      if feq top f0 then ("general"%string, f0_5)
      else (fst best, py_min2 (snd best) f1)
  | _, _ => ("general"%string, f0_5)
  end.

(** the [crops] and [locations] tables of [extract_entities] *)
Definition crops : list (pystr * pattern) :=
  [ (py "wheat", [py "gehun"; py "wheat"; [2327; 2375; 2361; 2370; 2306]]);
    (py "rice", [py "chawal"; py "rice"; [2343; 2366; 2344];
                 [2330; 2366; 2357; 2354]]);
    (py "cotton", [py "kapas"; py "cotton"; [2325; 2346; 2366; 2360]]);
    (py "sugarcane", [py "ganna"; py "sugarcane";
                      [2327; 2344; 2381; 2344; 2366]]);
    (py "potato", [py "aloo"; py "potato"; [2310; 2354; 2370]]);
    (py "tomato", [py "tamatar"; py "tomato"; [2335; 2350; 2366; 2335; 2352]]);
    (py "onion", [py "pyaz"; py "onion"; [2346; 2381; 2351; 2366; 2332]]) ].

Definition locations : list (pystr * pattern) :=
  [ (py "delhi", [py "delhi"; [2342; 2367; 2354; 2381; 2354; 2368]]);
    (py "punjab", [py "punjab"; [2346; 2306; 2332; 2366; 2348]]);
    (py "haryana", [py "haryana"; [2361; 2352; 2367; 2351; 2366; 2339; 2366]]);
    (py "up", [py "uttar pradesh"; py "up";
               [2313; 2340; 2381; 2340; 2352; 32;
                2346; 2381; 2352; 2342; 2375; 2358]]);
    (py "bihar", [py "bihar"; [2348; 2367; 2361; 2366; 2352]]);
    (py "maharashtra", [py "maharashtra";
                        [2350; 2361; 2366; 2352; 2366; 2359; 2381; 2335;
                         2381; 2352]]) ].

(** [for name, pattern in table.items(): if re.search(...): ...; break] *)
Definition first_hit (table : list (pystr * pattern)) (text_lower : pystr) : option pystr :=
  option_map fst (List.find (fun np => re_search (snd np) text_lower) table).

Definition set_opt (k : string) (v : option pystr) (d : gmap string pystr) : gmap string pystr :=
  match v with
  | Some x => <[k := x]> d
  | None => d
  end.

Definition extract_entities (text : pystr) : gmap string pystr :=
  let text_lower := str_lower text in
  let entities := set_opt "crop" (first_hit crops text_lower) ∅ in
  let entities := set_opt "location" (first_hit locations text_lower) entities in
  match quantity_search re_digit re_space text_lower with
  | Some (q, u) => <["unit" := u]> (<["quantity" := q]> entities)
  | None => entities
  end.
End WithRuntime.

End IndicBERTProcessor.

(** ** Values of the dicts the engine reads and returns *)

(** A numeric reading of the snapshot: a Python [int] or [float]. *)
Inductive num :=
  | Int (z : Z)
  | Float (f : spec_float).

(** [n > k] and [n < k] against an integer literal of the source; the
    literals (30, 40, 75, 80) are exact as floats. *)
Definition num_gt (n : num) (k : Z) : bool :=
  match n with
  | Int z => (k <? z)%Z
  | Float f => flt (float_of_Z k) f
  end.

Definition num_lt (n : num) (k : Z) : bool :=
  match n with
  | Int z => (z <? k)%Z
  | Float f => flt f (float_of_Z k)
  end.

(** A value stored in a response dict. *)
Inductive pyval :=
  | VStr (s : pystr)
  | VFloat (f : spec_float)
  | VList (l : list pystr).

(** The snapshot [real_time_data]: nested dicts in which every key may
    be absent, [{weather: {current: {temperature, humidity}},
    market: {price, change}}]. An absent key is [None]; a present
    [temperature], [humidity] or [price] is a number and a present
    [change] is a string. *)
Record current_weather := {
  temperature : option num;
  humidity : option num
}.

Record weather_data := { current : option current_weather }.

Record market_data := {
  price : option num;
  change : option pystr
}.

Record real_time_data := {
  weather : option weather_data;
  market : option market_data
}.

(** Modelled from the spec: the listing of [src/app.py] stops inside the
    dict returned by [_generate_pest_response], after the opening of
    its second warning, so the rest of that warning list and the two
    builders [_generate_scheme_response] and
    [_generate_general_response] are missing. The spec (4.6) says that
    the pest builder "always attaches warnings about label reading and
    protective measures", that the scheme and general builders "must
    each produce a deterministic default advice and at least one action
    item", and that builders overwrite only [primary_advice],
    [action_items], [confidence_score] and occasionally [warnings]. The
    wording of these texts is not given; it is left open here. *)
Class CutOffSource := {
  (** what follows the words [Use protective] in the second pest warning *)
  pest_warning_end : pystr;
  (** the warnings after the second, if any *)
  pest_warnings_more : list pystr;
  scheme_advice : pystr;
  scheme_action : pystr;
  scheme_actions_more : list pystr;
  general_advice : pystr;
  general_action : pystr;
  general_actions_more : list pystr
}.

(** ** class RAGEngine *)

Module RAGEngine.

Record crop_info := {
  sowing_season : pystr;
  harvesting : pystr;
  water_requirement : pystr;
  fertilizer : pystr;
  varieties : list pystr;
  diseases : list pystr;
  ideal_temp : pystr;
  soil_ph : pystr
}.

(** [weather_guidelines]: the inner dicts are read through [values()],
    in insertion order. *)
Record weather_guidelines_t := {
  irrigation : list (string * pystr);
  spraying : list (string * pystr)
}.

Record market_insights_t := {
  price_factors : list pystr;
  selling_tips : list pystr
}.

Record knowledge_base_t := {
  crops : gmap pystr crop_info;
  weather_guidelines : weather_guidelines_t;
  market_insights : market_insights_t
}.

Definition wheat_info : crop_info := {|
  sowing_season := py "Rabi (October-December)";
  harvesting := py "April-May";
  water_requirement := py "Medium (4-6 irrigations)";
  fertilizer := py "NPK 120:60:40 kg/hectare";
  varieties := [py "HD-2967"; py "PBW-343"; py "DBW-17"];
  diseases := [py "Rust"; py "Bunt"; py "Leaf blight"];
  ideal_temp := py "15-25" ++ [176] ++ py "C";
  soil_ph := py "6.0-7.5"
|}.

Definition rice_info : crop_info := {|
  sowing_season := py "Kharif (May-July)";
  harvesting := py "October-December";
  water_requirement := py "High (standing water)";
  fertilizer := py "NPK 100:50:50 kg/hectare";
  varieties := [py "Pusa-44"; py "IR-64"; py "Swarna"];
  diseases := [py "Blast"; py "Sheath blight"; py "Brown spot"];
  ideal_temp := py "20-35" ++ [176] ++ py "C";
  soil_ph := py "5.5-7.0"
|}.

(** [_load_knowledge_base] *)
Definition knowledge_base : knowledge_base_t := {|
  crops := <[py "rice" := rice_info]> (<[py "wheat" := wheat_info]> ∅);
  weather_guidelines := {|
    irrigation :=
      [ ("high_humidity"%string, py "Delay irrigation if humidity >80%");
        ("rainfall_expected"%string,
         py "Skip irrigation if rain expected within 24 hours");
        ("temperature"%string,
         py "Best irrigation time: early morning or evening") ];
    spraying :=
      [ ("wind_speed"%string, py "Avoid spraying if wind speed >10 km/h");
        ("temperature"%string, py "Spray when temperature <30" ++ [176] ++ py "C");
        ("humidity"%string, py "Best humidity range: 60-80%") ]
  |};
  market_insights := {|
    price_factors :=
      [ py "Seasonal demand"; py "Weather conditions";
        py "Government procurement"; py "Export policies";
        py "Storage capacity" ];
    selling_tips :=
      [ py "Monitor MSP announcements"; py "Check multiple mandis";
        py "Consider storage costs"; py "Track festival seasons" ]
  |}
|}.

Definition context_window : Z := 5.

(** The dict [context]: its three keys are always present. *)
Record context := {
  sources : list pystr;
  facts : list pystr;
  recommendations : list pystr
}.

Definition retrieve_context (intent : string) (entities : gmap string pystr)
    (query : pystr) : context :=
  let ctx := {| sources := []; facts := []; recommendations := [] |} in
  let ctx :=
    match entities !! "crop"%string with
    | Some crop =>
        match crops knowledge_base !! crop with
        | Some info =>
            {| facts := facts ctx ++
                 [ py "Sowing season: " ++ sowing_season info;
                   py "Water requirement: " ++ water_requirement info;
                   py "Recommended fertilizer: " ++ fertilizer info ];
               sources := sources ctx ++ [py "Crop Database - " ++ title crop];
               recommendations := recommendations ctx |}
        | None => ctx
        end
    | None => ctx
    end in
  if String.eqb intent "irrigation" then
    {| recommendations := recommendations ctx ++
         map snd (irrigation (weather_guidelines knowledge_base));
       sources := sources ctx ++ [py "Irrigation Best Practices"];
       facts := facts ctx |}
  else if String.eqb intent "market" then
    {| facts := facts ctx ++ selling_tips (market_insights knowledge_base);
       sources := sources ctx ++ [py "Market Intelligence"];
       recommendations := recommendations ctx |}
  else ctx.

Section Builders.
Context `{PyRuntime} `{CutOffSource}.

(** a number inside an f-string *)
Definition fmt (n : num) : pystr :=
  match n with
  | Int z => str_of_Z z
  | Float f => float_repr f
  end.

(** [real_time_data.get('weather', {}).get('current', {})] *)
Definition current_of (rtd : real_time_data) : current_weather :=
  default {| temperature := None; humidity := None |}
    (current (default {| current := None |} (weather rtd))).

(** [real_time_data.get('market', {})] *)
Definition market_of (rtd : real_time_data) : market_data :=
  default {| price := None; change := None |} (market rtd).

Definition patch3 (advice : pystr) (actions : list pystr) (confidence : spec_float)
    : gmap string pyval :=
  <["confidence_score"%string := VFloat confidence]>
    (<["action_items"%string := VList actions]>
       (<["primary_advice"%string := VStr advice]> ∅)).

Definition _generate_weather_response (entities : gmap string pystr)
    (ctx : context) (rtd : real_time_data) : gmap string pyval :=
  let weather := current_of rtd in
  let temp := default (Int 25) (temperature weather) in
  let humidity := default (Int 60) (humidity weather) in
  let advice :=
    py "Current conditions: " ++ fmt temp ++ [176] ++ py "C, " ++
    fmt humidity ++ py "% humidity. " in
  let '(advice, actions) :=
    if num_gt humidity 80 then
      (advice ++ py "High humidity detected. Delay irrigation and avoid fungicide spray.",
       [py "Skip irrigation today"; py "Monitor for fungal diseases"])
    else if num_lt humidity 40 then
      (advice ++ py "Low humidity. Increase irrigation frequency.",
       [py "Provide extra watering"; py "Mulch around plants"])
    else
      (advice ++ py "Good conditions for normal farming activities.",
       [py "Continue regular irrigation"; py "Good time for field operations"]) in
  patch3 advice actions f0_9.

Definition _generate_market_response (entities : gmap string pystr)
    (ctx : context) (rtd : real_time_data) : gmap string pyval :=
  let market := market_of rtd in
  let price := default (Int 0) (price market) in
  let change := default (py "N/A") (change market) in
  let crop := default (py "your crop") (entities !! "crop"%string) in
  let advice :=
    py "Current " ++ crop ++ py " price: " ++ [8377] ++ fmt price ++
    py "/quintal (" ++ change ++ py "). " in
  let '(advice, actions) :=
    if contains (py "+") change then
      (advice ++ py "Prices are rising. Good time to sell.",
       [py "Sell immediately if ready"; py "Check nearby mandis for best rates"])
    else
      (advice ++ py "Prices declining. Consider waiting if possible.",
       [py "Store safely if possible"; py "Monitor price trends for 1 week"]) in
  patch3 advice actions f0_8.

Definition _generate_fertilizer_response (entities : gmap string pystr)
    (ctx : context) (rtd : real_time_data) : gmap string pyval :=
  let crop := default (py "wheat") (entities !! "crop"%string) in
  let '(advice, actions) :=
    match crops knowledge_base !! crop with
    | Some info =>
        let advice :=
          py "For " ++ crop ++ py ": Apply " ++ fertilizer info ++ py ". " in
        let weather := current_of rtd in
        let temp := default (Int 25) (temperature weather) in
        if num_gt temp 30 then
          (advice ++ py "High temperature - apply in evening.",
           [py "Apply after 5 PM"; py "Water lightly after application"])
        else
          (advice ++ py "Good conditions for fertilizer application.",
           [py "Apply in morning hours"; py "Incorporate into soil"])
    | None =>
        (py "General fertilizer recommendation: NPK 120:60:60 kg/hectare",
         [py "Soil test recommended"; py "Split application advised"])
    end in
  patch3 advice actions f0_85.

(** The listing ends inside the [warnings] list of the returned dict;
    its end is taken from [CutOffSource]. *)
Definition _generate_pest_response (entities : gmap string pystr)
    (ctx : context) (rtd : real_time_data) : gmap string pyval :=
  let crop := default (py "crop") (entities !! "crop"%string) in
  let advice :=
    py "For " ++ crop ++ py " pest management: Regular monitoring essential. " in
  let weather := current_of rtd in
  let humidity := default (Int 60) (humidity weather) in
  let '(advice, actions) :=
    if num_gt humidity 75 then
      (advice ++ py "High humidity increases fungal disease risk.",
       [py "Spray preventive fungicide"; py "Improve air circulation"])
    else
      (advice ++ py "Current conditions moderate for pest activity.",
       [py "Weekly field monitoring"; py "Use pheromone traps"]) in
  <["warnings"%string :=
      VList (py "Always read pesticide labels"
               :: (py "Use protective" ++ pest_warning_end)
               :: pest_warnings_more)]>
    (<["action_items"%string := VList actions]>
       (<["primary_advice"%string := VStr advice]> ∅)).

(** Modelled from the spec: [_generate_scheme_response] is not in the
    listing; it "must produce a deterministic default advice and at
    least one action item". *)
Definition _generate_scheme_response (entities : gmap string pystr)
    (ctx : context) (rtd : real_time_data) : gmap string pyval :=
  <["action_items"%string := VList (scheme_action :: scheme_actions_more)]>
    (<["primary_advice"%string := VStr scheme_advice]> ∅).

(** Modelled from the spec: [_generate_general_response] is not in the
    listing; it "must produce a deterministic default advice and at
    least one action item". *)
Definition _generate_general_response (entities : gmap string pystr)
    (ctx : context) (rtd : real_time_data) : gmap string pyval :=
  <["action_items"%string := VList (general_action :: general_actions_more)]>
    (<["primary_advice"%string := VStr general_advice]> ∅).

(** the dict [response] before the builder's result is merged in *)
Definition base_response (ctx : context) : gmap string pyval :=
  <["warnings"%string := VList []]>
    (<["sources"%string := VList (sources ctx)]>
       (<["confidence_score"%string := VFloat f0_85]>
          (<["action_items"%string := VList []]>
             (<["detailed_explanation"%string := VStr []]>
                (<["primary_advice"%string := VStr []]> ∅))))).

(** the [if/elif] chain of [generate_response]: the dict handed to
    [response.update] *)
Definition dispatch (intent : string) (entities : gmap string pystr)
    (ctx : context) (rtd : real_time_data) : gmap string pyval :=
  if String.eqb intent "weather" || String.eqb intent "irrigation" then
    _generate_weather_response entities ctx rtd
  else if String.eqb intent "market" then
    _generate_market_response entities ctx rtd
  else if String.eqb intent "fertilizer" then
    _generate_fertilizer_response entities ctx rtd
  else if String.eqb intent "pest" then
    _generate_pest_response entities ctx rtd
  else if String.eqb intent "scheme" then
    _generate_scheme_response entities ctx rtd
  else
    _generate_general_response entities ctx rtd.

(** [response.update(d)]: the entries of [d] replace those of
    [response] with the same key *)
Definition generate_response (intent : string) (entities : gmap string pystr)
    (ctx : context) (rtd : real_time_data) : gmap string pyval :=
  dispatch intent entities ctx rtd ∪ base_response ctx.
End Builders.

End RAGEngine.

(** ** A runtime to compute with *)

#[export] Instance ascii_runtime : PyRuntime := {|
  str_lower := map ascii_lower;
  str_lower_ascii := fun s _ => eq_refl;
  re_digit := ascii_digit;
  re_digit_ascii := fun c _ => eq_refl;
  re_space := ascii_space;
  re_space_ascii := fun c _ => eq_refl;
  float_repr := fun _ => py "<float>"
|}.

#[export] Instance no_cut_off_text : CutOffSource := {|
  pest_warning_end := py " equipment";
  pest_warnings_more := [];
  scheme_advice := py "";
  scheme_action := py "";
  scheme_actions_more := [];
  general_advice := py "";
  general_action := py "";
  general_actions_more := []
|}.


(** ** Vocabulary of the statements *)

(** The floats a score can be: a zero, a positive finite value or the
    positive infinity. *)
Definition nonneg (x : spec_float) : bool :=
  match x with
  | S754_zero _ => true
  | S754_infinity s => negb s
  | S754_finite s _ _ => negb s
  | S754_nan => false
  end.

(** [s] is a maximum of the scores: no entry compares greater. *)
Definition is_top (scores : list (string * spec_float)) (s : spec_float) : bool :=
  forallb (fun e => negb (flt s (snd e))) scores.

(** The intents that attain the maximum score, in table order. *)
Definition at_max (scores : list (string * spec_float)) : list string :=
  map fst (List.filter (fun e => is_top scores (snd e)) scores).

(** A code point of the Devanagari block, U+0900 to U+097F. *)
Definition is_devanagari (c : N) : Prop := 2304 <= c /\ c <= 2431.

(** A Latin letter, [A-Z] or [a-z]. *)
Definition is_latin (c : N) : Prop := (65 <= c /\ c <= 90) \/ (97 <= c /\ c <= 122).

#[global] Instance is_devanagari_dec (c : N) : Decision (is_devanagari c).
Proof. unfold is_devanagari. apply _. Defined.

#[global] Instance is_latin_dec (c : N) : Decision (is_latin c).
Proof. unfold is_latin. apply _. Defined.

(** The greatest score, as [max(intent_scores.values())] finds it. *)
Definition max_score (scores : list (string * spec_float)) : spec_float :=
  default f0 (py_max (map snd scores)).

(** The tie-break rule read without restriction: whenever two or more
    intents attain the maximum score, the first of them in table order
    is the intent returned. *)
Definition tie_break_rule `{PyRuntime} (text : pystr) : Prop :=
  let scores := IndicBERTProcessor.intent_scores text in
  (2 <= length (at_max scores))%nat ->
  head (at_max scores) = Some (fst (IndicBERTProcessor.extract_intent text)).

(** No pattern of the intent table occurs in the lower-cased text. *)
Definition no_intent_match (text_lower : pystr) : bool :=
  forallb (fun ip => forallb (fun p => negb (re_search p text_lower)) (snd ip))
    IndicBERTProcessor.intent_patterns.


Definition empty_snapshot : real_time_data := {| weather := None; market := None |}.


(** The keys a builder may write, after the spec (4.6). *)
Definition produced_keys : list string :=
  ["primary_advice"; "action_items"; "confidence_score"; "warnings"]%string.


(** The crops the extractor knows and the knowledge base does not. *)
Definition uncovered_crops : list pystr :=
  [py "cotton"; py "sugarcane"; py "potato"; py "tomato"; py "onion"].

(** [a <= b] on floats. *)
Definition fle : spec_float -> spec_float -> bool := SFleb.

(** The labels [extract_intent] can return. *)
Definition intent_labels : list string :=
  "general"%string :: map fst IndicBERTProcessor.intent_patterns.

(** The keys [extract_entities] can write. *)
Definition entity_keys : list string :=
  ["crop"; "location"; "quantity"; "unit"]%string.

(** A code point that is neither Devanagari nor a Latin letter. *)
Definition other_script (c : N) : Prop := ~ is_devanagari c /\ ~ is_latin c.

(** The intents [generate_response] has a builder in the listing for. *)
Definition coded_intents : list string :=
  ["weather"; "irrigation"; "market"; "fertilizer"; "pest"]%string.

(** The alternatives of the wheat entry of the crop table. *)
Definition wheat_names : pattern :=
  [py "gehun"; py "wheat"; [2327; 2375; 2361; 2370; 2306]].

(** Lower-case ASCII: a code point below 128 that is not a capital. *)
Definition plain_ascii (c : N) : bool := is_ascii c && negb (in_range 65 90 c).

(** The intents [generate_response] and [retrieve_context] test for. *)
Definition branch_intents : list string :=
  ["weather"; "irrigation"; "market"; "fertilizer"; "pest"; "scheme"]%string.

(** A float at least [2^b]: the positive infinity, or a positive finite
    value [m * 2^e] with [b <= log2 m + e]. *)
Definition at_least_pow2 (b : Z) (x : spec_float) : Prop :=
  match x with
  | S754_infinity false => True
  | S754_finite false m e => (b <= Z.log2 (Z.pos m) + e)%Z
  | _ => False
  end.

(** Some pattern of the intent's list occurs in the lower-cased text. *)
Definition intent_matches (patterns : list pattern) (text_lower : pystr) : bool :=
  existsb (fun p => re_search p text_lower) patterns.

(** No alternative of the pattern is the empty string. *)
Definition no_empty_alternative (p : pattern) : bool :=
  forallb (fun alt => match alt with [] => false | _ :: _ => true end) p.

(** ** Order and sign of the floats that occur as scores *)

Section IterPos.
Context {A : Type} (f : A -> A) (P : A -> Prop).
Hypothesis f_keeps : forall x, P x -> P (f x).

Lemma iter_pos_keeps (p : positive) (x : A) : P x -> P (SpecFloat.iter_pos f p x).
Proof.
  revert x. induction p as [p IH | p IH |]; intros x Hx; simpl; auto.
Qed.
End IterPos.

Lemma shr_1_nonneg (r : shr_record) : (0 <= shr_m r)%Z -> (0 <= shr_m (shr_1 r))%Z.
Proof.
  destruct r as [m r s]. simpl.
  destruct m as [| [p | p |] | [p | p |]]; simpl; lia.
Qed.

Lemma shr_fexp_nonneg (m e : Z) (l : location) :
  (0 <= m)%Z -> (0 <= shr_m (fst (shr_fexp prec emax m e l)))%Z.
Proof.
  intros Hm. unfold shr_fexp, shr.
  assert (H0 : (0 <= shr_m (shr_record_of_loc m l))%Z)
    by (destruct l as [| []]; simpl; exact Hm).
  destruct (fexp prec emax (Zdigits2 m + e) - e)%Z; simpl; try exact H0.
  apply iter_pos_keeps; [apply shr_1_nonneg | exact H0].
Qed.

Lemma round_nearest_even_nonneg (m : Z) (l : location) :
  (0 <= m)%Z -> (0 <= round_nearest_even m l)%Z.
Proof.
  intros Hm. destruct l as [| []]; simpl; try lia.
  destruct (Z.even m); lia.
Qed.

Lemma binary_round_aux_nonneg (m e : Z) (l : location) :
  (0 <= m)%Z -> nonneg (binary_round_aux prec emax false m e l) = true.
Proof.
  intros Hm. unfold binary_round_aux.
  pose proof (shr_fexp_nonneg m e l Hm) as H1.
  destruct (shr_fexp prec emax m e l) as [mrs' e']. simpl in H1.
  pose proof (shr_fexp_nonneg _ e' loc_Exact
                (round_nearest_even_nonneg _ (loc_of_shr_record mrs') H1)) as H2.
  destruct (shr_fexp prec emax _ e' loc_Exact) as [mrs'' e'']. simpl in H2.
  destruct (shr_m mrs'') as [| p | p]; [reflexivity | | lia].
  destruct (e'' <=? emax - prec)%Z; reflexivity.
Qed.

Lemma binary_round_nonneg (m : positive) (e : Z) :
  nonneg (binary_round prec emax false m e) = true.
Proof.
  unfold binary_round.
  destruct (shl_align m e _) as [mz ez].
  apply binary_round_aux_nonneg. lia.
Qed.

Lemma float_of_Z_nonneg (n : Z) : (0 <= n)%Z -> nonneg (float_of_Z n) = true.
Proof.
  intros Hn. unfold float_of_Z, binary_normalize.
  destruct n as [| p | p]; [reflexivity | apply binary_round_nonneg | lia].
Qed.

Lemma fmul_nonneg (x y : spec_float) :
  nonneg x = true -> y = f0_3 -> nonneg (fmul x y) = true.
Proof.
  intros Hx ->. unfold fmul, f0_3.
  destruct x as [s | s | | s m e]; simpl in *; try done.
  - destruct s; done.
  - destruct s; [done |]. apply binary_round_aux_nonneg. lia.
Qed.

Lemma fadd_nonneg (x y : spec_float) :
  nonneg x = true -> nonneg y = true -> nonneg (fadd x y) = true.
Proof.
  intros Hx Hy. unfold fadd.
  destruct x as [sx | sx | | sx mx ex], y as [sy | sy | | sy my ey];
    simpl in *; try done;
    destruct sx; try done; destruct sy; try done.
  unfold binary_normalize.
  destruct (shl_align mx ex _) as [a ?], (shl_align my ey _) as [b ?]; simpl.
  apply binary_round_nonneg.
Qed.

Lemma flt_finite (m1 m2 : positive) (e1 e2 : Z) :
  flt (S754_finite false m1 e1) (S754_finite false m2 e2) = true <->
  (e1 < e2 \/ (e1 = e2 /\ Z.pos m1 < Z.pos m2))%Z.
Proof.
  unfold flt, SFltb; simpl.
  change (Pos.compare_cont Eq m1 m2) with (Pos.compare m1 m2).
  destruct (Z.compare_spec e1 e2), (Pos.compare_spec m1 m2);
    split; intros; try done; try lia.
Qed.

Lemma flt_finite_false (m1 m2 : positive) (e1 e2 : Z) :
  flt (S754_finite false m1 e1) (S754_finite false m2 e2) = false <->
  (e2 < e1 \/ (e1 = e2 /\ Z.pos m2 <= Z.pos m1))%Z.
Proof.
  rewrite <- not_true_iff_false, flt_finite. lia.
Qed.

Lemma flt_irrefl (a : spec_float) : flt a a = false.
Proof.
  destruct a as [s | s | | s m e]; try done.
  - by destruct s.
  - unfold flt, SFltb; simpl.
    rewrite Z.compare_refl.
    change (Pos.compare_cont Eq m m) with (Pos.compare m m).
    rewrite Pos.compare_refl. by destruct s.
Qed.

Lemma flt_trans (a b c : spec_float) :
  nonneg a = true -> nonneg b = true -> nonneg c = true ->
  flt a b = true -> flt b c = true -> flt a c = true.
Proof.
  destruct a as [sa | sa | | sa ma ea], b as [sb | sb | | sb mb eb],
    c as [sc | sc | | sc mc ec]; simpl; intros Ha Hb Hc;
    try done;
    repeat match goal with
           | s : bool |- _ => destruct s; try done
           end.
  rewrite !flt_finite. lia.
Qed.

Lemma flt_neg_trans (a b c : spec_float) :
  nonneg a = true -> nonneg b = true -> nonneg c = true ->
  flt a b = false -> flt b c = false -> flt a c = false.
Proof.
  destruct a as [sa | sa | | sa ma ea], b as [sb | sb | | sb mb eb],
    c as [sc | sc | | sc mc ec]; simpl; intros Ha Hb Hc;
    try done;
    repeat match goal with
           | s : bool |- _ => destruct s; try done
           end.
  rewrite !flt_finite_false. lia.
Qed.

(** ** [max] with a key returns the first maximum *)

Lemma filter_none {A} (f : A -> bool) (l : list A) :
  (forall x, In x l -> f x = false) -> List.filter f l = [].
Proof.
  induction l as [| a l IH]; intros Hf; simpl; [done |].
  rewrite (Hf a) by (by left). apply IH. intros x Hx. apply Hf. by right.
Qed.

Section ArgMax.
Context {A : Type} (key : A -> spec_float).

Let pick (best y : A) : A := if flt (key best) (key y) then y else best.

Lemma fold_pick_split (l : list A) (x : A) :
  Forall (fun y => nonneg (key y) = true) (x :: l) ->
  exists l1 l2,
    x :: l = l1 ++ fold_left pick l x :: l2 /\
    Forall (fun y => flt (key y) (key (fold_left pick l x)) = true) l1 /\
    Forall (fun y => flt (key (fold_left pick l x)) (key y) = false) l2.
Proof.
  revert x. induction l as [| y l IH]; intros x Hall.
  - exists [], []. simpl. auto.
  - apply Forall_cons in Hall as [Hx Hall].
    pose proof Hall as Hyl. apply Forall_cons in Hyl as [Hy Hl].
    simpl. change (pick x y) with (if flt (key x) (key y) then y else x).
    destruct (flt (key x) (key y)) eqn:Hxy.
    + destruct (IH y Hall) as (l1 & l2 & Heq & H1 & H2).
      remember (fold_left pick l y) as r eqn:Er. clear Er.
      assert (Hr : nonneg (key r) = true).
      { assert (Hin : r ∈ y :: l) by (rewrite Heq; set_solver).
        by eapply (proj1 (Forall_forall _ _) Hall). }
      exists (x :: l1), l2. split; [by rewrite Heq |]. split; [| done].
      constructor; [| done].
      destruct l1 as [| z l1].
      * injection Heq as Hyr _. by rewrite <- Hyr.
      * injection Heq as Hyz _. apply Forall_cons in H1 as [Hzr _].
        rewrite <- Hyz in Hzr. by apply (flt_trans _ (key y)).
    + assert (Hxl : Forall (fun y => nonneg (key y) = true) (x :: l))
        by by constructor.
      destruct (IH x Hxl) as (l1 & l2 & Heq & H1 & H2).
      remember (fold_left pick l x) as r eqn:Er. clear Er.
      assert (Hr : nonneg (key r) = true).
      { assert (Hin : r ∈ x :: l) by (rewrite Heq; set_solver).
        by eapply (proj1 (Forall_forall _ _) Hxl). }
      destruct l1 as [| z l1].
      * injection Heq as Hxr Hl2. exists [], (y :: l2).
        split; [by rewrite <- Hxr, Hl2 |]. split; [done |].
        constructor; [by rewrite <- Hxr | done].
      * injection Heq as Hxz Hl2. exists (z :: y :: l1), l2.
        split; [by rewrite Hxz, Hl2 |]. split; [| done].
        apply Forall_cons in H1 as [Hzr H1].
        constructor; [done |]. constructor; [| done].
        destruct (flt (key y) (key r)) eqn:Hyr; [done |].
        rewrite <- Hxz in Hzr.
        by rewrite (flt_neg_trans _ (key y) _ Hx Hy Hr Hxy Hyr) in Hzr.
Qed.
End ArgMax.

Lemma fold_pick_map {A} (key : A -> spec_float) (l : list A) (x : A) :
  fold_left (fun best y => if flt (id best) (id y) then y else best)
    (map key l) (key x)
  = key (fold_left (fun best y => if flt (key best) (key y) then y else best) l x).
Proof.
  revert x. induction l as [| y l IH]; intros x; simpl; [done |].
  unfold id in *. destruct (flt (key x) (key y)); apply IH.
Qed.

(** [max(d.values())] is the value of [max(d, key=d.get)]. *)
Lemma py_max_by_snd (scores : list (string * spec_float)) :
  py_max (map snd scores) = option_map snd (py_max_by snd scores).
Proof.
  destruct scores as [| x l]; [done |].
  unfold py_max, py_max_by. simpl. f_equal. apply fold_pick_map.
Qed.

(** The entry chosen by [max(d, key=d.get)] is the first of those that
    attain the maximum. *)
Lemma py_max_by_first_top (scores : list (string * spec_float)) (best : string * spec_float) :
  Forall (fun e => nonneg (snd e) = true) scores ->
  py_max_by snd scores = Some best ->
  head (at_max scores) = Some (fst best).
Proof.
  intros Hall Hbest. destruct scores as [| x l]; [done |].
  injection Hbest as Hbest.
  destruct (fold_pick_split snd l x Hall) as (l1 & l2 & Heq & H1 & H2).
  rewrite Hbest in Heq, H1, H2.
  assert (Hb : nonneg (snd best) = true).
  { assert (Hin : best ∈ x :: l) by (rewrite Heq; set_solver).
    by eapply (proj1 (Forall_forall _ _) Hall). }
  assert (Htop : is_top (x :: l) (snd best) = true).
  { unfold is_top. rewrite Heq, forallb_app. simpl.
    rewrite flt_irrefl. simpl. apply andb_true_iff. split.
    - apply forallb_forall. intros e He. apply negb_true_iff.
      destruct (flt (snd best) (snd e)) eqn:Hbe; [| done].
      assert (He' : e ∈ l1) by by apply list_elem_of_In.
      assert (Hne : nonneg (snd e) = true).
      { assert (Hin : e ∈ x :: l) by (rewrite Heq; set_solver).
        by eapply (proj1 (Forall_forall _ _) Hall). }
      rewrite Forall_forall in H1.
      pose proof (flt_trans _ _ _ Hb Hne Hb Hbe (H1 e He')) as Hbb.
      by rewrite flt_irrefl in Hbb.
    - apply forallb_forall. intros e He. apply negb_true_iff.
      rewrite Forall_forall in H2. apply H2. by apply list_elem_of_In. }
  assert (Hl1 : List.filter (fun e => is_top (x :: l) (snd e)) l1 = []).
  { apply filter_none. intros e He.
    apply not_true_iff_false. unfold is_top. intros Hall_e.
    rewrite forallb_forall in Hall_e.
    assert (Hin : In best (x :: l)) by (rewrite Heq; apply in_elt).
    specialize (Hall_e best Hin). apply negb_true_iff in Hall_e.
    rewrite Forall_forall in H1. rewrite H1 in Hall_e; [done |].
    by apply list_elem_of_In. }
  unfold at_max. set (top := is_top (x :: l)) in *.
  rewrite Heq, List.filter_app, Hl1. simpl.
  by rewrite Htop.
Qed.

(** ** Properties of [IndicBERTProcessor] *)

Section IntentFacts.
Context `{PyRuntime}.
Import IndicBERTProcessor.

Lemma intent_score_nonneg (patterns : list pattern) (t : pystr) :
  nonneg (intent_score patterns t) = true.
Proof.
  unfold intent_score. generalize f0 (eq_refl : nonneg f0 = true).
  induction patterns as [| p ps IH]; intros acc Hacc; simpl; [done |].
  apply IH, fadd_nonneg; [done |].
  apply fmul_nonneg; [| done]. apply float_of_Z_nonneg. lia.
Qed.

Lemma intent_scores_nonneg (text : pystr) :
  Forall (fun e => nonneg (snd e) = true) (intent_scores text).
Proof.
  unfold intent_scores. apply Forall_map, Forall_forall. intros ip _. simpl.
  apply intent_score_nonneg.
Qed.

Lemma re_search_false_count (p : pattern) (s : pystr) :
  re_search p s = false -> findall_count p s = 0%nat.
Proof.
  unfold findall_count. induction s as [| c s IH]; simpl; [done |].
  destruct (match_here p (c :: s)); [done | exact IH].
Qed.

Lemma intent_score_no_match (patterns : list pattern) (t : pystr) :
  forallb (fun p => negb (re_search p t)) patterns = true ->
  intent_score patterns t = f0.
Proof.
  unfold intent_score.
  induction patterns as [| p ps IH]; simpl; [done |].
  intros [Hp Hps]%andb_true_iff. apply negb_true_iff in Hp.
  rewrite (re_search_false_count _ _ Hp).
  change (fadd f0 (fmul (float_of_Z (Z.of_nat 0)) f0_3)) with f0.
  by apply IH.
Qed.

Lemma intent_scores_no_match (text : pystr) :
  no_intent_match (str_lower text) = true ->
  intent_scores text = map (fun ip => (fst ip, f0)) intent_patterns.
Proof.
  unfold no_intent_match, intent_scores. intros Hno.
  rewrite forallb_forall in Hno.
  apply map_ext_in. intros ip Hip.
  by rewrite intent_score_no_match by by apply Hno.
Qed.

(** C1. On the text [kab paani de] the weather keyword [paani] and the
    irrigation phrase [kab paani de] match once each, both intents score
    0.3, and [extract_intent] returns the earlier one: the intent is
    [weather], not [irrigation], with confidence 0.3. *)
Theorem extract_intent_kab_paani_de :
  extract_intent (py "kab paani de") = ("weather"%string, f0_3) /\
  intent_scores (py "kab paani de") =
    [ ("weather"%string, f0_3); ("irrigation"%string, f0_3);
      ("market"%string, f0); ("fertilizer"%string, f0); ("pest"%string, f0);
      ("scheme"%string, f0); ("crop"%string, f0) ].
Proof.
  unfold extract_intent, intent_scores.
  rewrite str_lower_ascii by reflexivity.
  split; vm_compute; reflexivity.
Qed.

(** C2, as amended. For every text whose greatest score is not 0, the
    intent that [extract_intent] returns is the first, in the order of
    the table (weather, irrigation, market, fertilizer, pest, scheme,
    crop), of the intents that attain the greatest score. *)
Theorem extract_intent_first_of_ties (text : pystr) :
  feq (max_score (intent_scores text)) f0 = false ->
  head (at_max (intent_scores text)) = Some (fst (extract_intent text)).
Proof.
  unfold max_score, extract_intent. intros Hmax.
  rewrite py_max_by_snd in *.
  destruct (py_max_by snd (intent_scores text)) as [best |] eqn:Hbest.
  - simpl in *. rewrite Hmax. simpl.
    by apply py_max_by_first_top; [apply intent_scores_nonneg |].
  - simpl in Hmax. discriminate Hmax.
Qed.

(** C3. When no pattern of the intent table occurs in the lower-cased
    text (so that every score is 0), [extract_intent] returns exactly
    [('general', 0.5)]; it does so on [xyz qwerty]. *)
Theorem extract_intent_general :
  (forall text, no_intent_match (str_lower text) = true ->
     extract_intent text = ("general"%string, f0_5)) /\
  extract_intent (py "xyz qwerty") = ("general"%string, f0_5).
Proof.
  assert (Hgen : forall text, no_intent_match (str_lower text) = true ->
            extract_intent text = ("general"%string, f0_5)).
  { intros text Hno. unfold extract_intent.
    by rewrite (intent_scores_no_match text Hno). }
  split; [exact Hgen |].
  apply Hgen. by rewrite str_lower_ascii.
Qed.

(** Every score of the table is 0 exactly in the case of C3. *)
Lemma no_match_scores_zero (text : pystr) :
  no_intent_match (str_lower text) = true ->
  Forall (fun e => snd e = f0) (intent_scores text).
Proof.
  intros Hno. rewrite (intent_scores_no_match text Hno).
  apply Forall_map, Forall_forall. by intros.
Qed.
End IntentFacts.

(** C2, as stated. With no pattern matched all seven intents attain the
    greatest score, 0, and the intent returned is [general], which is
    not the first of the table. *)
Lemma tie_break_rule_fails_when_all_zero : ~ tie_break_rule (py "xyz qwerty").
Proof.
  unfold tie_break_rule. intros Hrule.
  assert (Hties : (2 <= length (at_max (IndicBERTProcessor.intent_scores (py "xyz qwerty"))))%nat)
    by (vm_compute; lia).
  apply Hrule in Hties. vm_compute in Hties. discriminate Hties.
Qed.

Lemma extract_intent_first_of_ties_witness :
  feq (max_score (IndicBERTProcessor.intent_scores (py "kab paani de"))) f0 = false /\
  head (at_max (IndicBERTProcessor.intent_scores (py "kab paani de")))
  = Some (fst (IndicBERTProcessor.extract_intent (py "kab paani de"))).
Proof.
  split; [reflexivity |].
  apply (extract_intent_first_of_ties (py "kab paani de")). reflexivity.
Defined.

Lemma extract_intent_general_witness :
  no_intent_match (str_lower (py "Namaste ji")) = true /\
  IndicBERTProcessor.extract_intent (py "Namaste ji") = ("general"%string, f0_5).
Proof.
  split; [reflexivity |].
  apply (proj1 extract_intent_general (py "Namaste ji")). reflexivity.
Defined.

(** ** [detect_language] *)

Lemma length_filter_bool_prop {A} (f : A -> bool) (P : A -> Prop)
    `{!forall x, Decision (P x)} (l : list A) :
  (forall x, f x = true <-> P x) ->
  length (List.filter f l) = length (filter P l).
Proof.
  intros Hf. induction l as [| a l IH]; [done |].
  simpl. rewrite filter_cons. destruct (f a) eqn:Hfa.
  - rewrite decide_True by by apply Hf. simpl. by rewrite IH.
  - rewrite decide_False; [done |]. rewrite <- Hf. congruence.
Qed.

Lemma in_range_spec (lo hi c : N) : in_range lo hi c = true <-> lo <= c /\ c <= hi.
Proof. unfold in_range. rewrite andb_true_iff, !N.leb_le. done. Qed.

Lemma hindi_chars_count (text : pystr) :
  length (IndicBERTProcessor.hindi_chars text) = length (filter is_devanagari text).
Proof. apply length_filter_bool_prop. intros c. apply in_range_spec. Qed.

Lemma english_chars_count (text : pystr) :
  length (IndicBERTProcessor.english_chars text) = length (filter is_latin text).
Proof.
  apply length_filter_bool_prop. intros c. unfold ascii_alpha, is_latin.
  by rewrite orb_true_iff, !in_range_spec.
Qed.

(** C4. [detect_language] returns [hi] when the Devanagari code points
    outnumber the Latin letters, [en] otherwise when there is a Latin
    letter, and [hi] when the text has neither; the result is always one
    of the supported language codes. *)
Theorem detect_language_rule (text : pystr) :
  let dev := length (filter is_devanagari text) in
  let lat := length (filter is_latin text) in
  ((lat < dev)%nat -> IndicBERTProcessor.detect_language text = "hi"%string) /\
  ((dev <= lat)%nat -> (0 < lat)%nat ->
     IndicBERTProcessor.detect_language text = "en"%string) /\
  (dev = 0%nat -> lat = 0%nat ->
     IndicBERTProcessor.detect_language text = "hi"%string) /\
  In (IndicBERTProcessor.detect_language text)
     IndicBERTProcessor.supported_languages.
Proof.
  intros dev lat. unfold IndicBERTProcessor.detect_language.
  rewrite hindi_chars_count, english_chars_count. fold dev lat.
  destruct (Nat.ltb_spec lat dev), (Nat.ltb_spec 0 lat);
    repeat split; intros; try done; try lia; simpl; auto.
Qed.

Lemma detect_language_rule_witness :
  IndicBERTProcessor.detect_language [2346; 2366; 2344; 2368; 32; 107] = "hi"%string /\
  IndicBERTProcessor.detect_language (py "paani kab dena hai") = "en"%string /\
  IndicBERTProcessor.detect_language (py "2024 !?") = "hi"%string.
Proof.
  split; [| split].
  - apply (proj1 (detect_language_rule [2346; 2366; 2344; 2368; 32; 107])).
    vm_compute. lia.
  - apply (proj1 (proj2 (detect_language_rule (py "paani kab dena hai"))));
      vm_compute; lia.
  - apply (proj1 (proj2 (proj2 (detect_language_rule (py "2024 !?")))));
      reflexivity.
Defined.

(** ** [extract_entities] *)

Section QuantityFacts.
Variables d1 s1 d2 s2 : N -> bool.

Let agree (c : N) : Prop := d1 c = d2 c /\ s1 c = s2 c.

Lemma spaces_unit_ext (s : pystr) :
  Forall agree s -> spaces_unit s1 s = spaces_unit s2 s.
Proof.
  induction 1 as [| c s [_ Hs] _ IH]; simpl; [done |].
  by rewrite Hs, IH.
Qed.

Lemma digits_spaces_unit_ext (s : pystr) :
  Forall agree s -> digits_spaces_unit d1 s1 s = digits_spaces_unit d2 s2 s.
Proof.
  induction 1 as [| c s [Hd Hs] Hall IH]; simpl; [done |].
  rewrite Hd, IH. simpl. rewrite Hs. by rewrite (spaces_unit_ext s Hall).
Qed.

Lemma quantity_search_ext (s : pystr) :
  Forall agree s -> quantity_search d1 s1 s = quantity_search d2 s2 s.
Proof.
  induction 1 as [| c s [Hd Hs] Hall IH]; simpl; [done |].
  by rewrite Hd, (digits_spaces_unit_ext s Hall), IH.
Qed.
End QuantityFacts.

Section EntityFacts.
Context `{PyRuntime}.
Import IndicBERTProcessor.

(** On ASCII text the classes of the runtime are the ASCII classes. *)
Lemma quantity_search_ascii (s : pystr) :
  forallb is_ascii s = true ->
  quantity_search re_digit re_space s = quantity_search ascii_digit ascii_space s.
Proof.
  intros Hs. apply quantity_search_ext, Forall_forall. intros c Hc.
  rewrite forallb_forall in Hs.
  assert (Hascii : is_ascii c = true) by by apply Hs, list_elem_of_In.
  split; [by apply re_digit_ascii | by apply re_space_ascii].
Qed.

Lemma set_opt_lookup_ne (k k' : string) (v : option pystr) (d : gmap string pystr) :
  k <> k' -> set_opt k v d !! k' = d !! k'.
Proof. intros Hne. destruct v; simpl; [by rewrite lookup_insert_ne | done]. Qed.

(** C8. On [mujhe 5 kg aloo chahiye] the entities are exactly the crop
    [potato], the quantity [5] and the unit [kg]; and on every text the
    keys [quantity] and [unit] are both present or both absent. *)
Theorem extract_entities_quantity_unit :
  extract_entities (py "mujhe 5 kg aloo chahiye")
  = <["crop"%string := py "potato"]>
      (<["quantity"%string := py "5"]> (<["unit"%string := py "kg"]> ∅))
  /\ forall text,
       is_Some (extract_entities text !! "quantity"%string) <->
       is_Some (extract_entities text !! "unit"%string).
Proof.
  split.
  - unfold extract_entities.
    rewrite str_lower_ascii by reflexivity.
    rewrite quantity_search_ascii by reflexivity.
    vm_compute. reflexivity.
  - intros text. unfold extract_entities.
    destruct (quantity_search _ _ _) as [[q u] |].
    + rewrite lookup_insert_ne by done. rewrite !lookup_insert_eq. by split.
    + rewrite !set_opt_lookup_ne by done. rewrite !lookup_empty.
      split; intros [? ?]; done.
Qed.
End EntityFacts.

(** ** Properties of [RAGEngine] *)

Lemma contains_app_r (sub a b : pystr) :
  contains sub b = true -> contains sub (a ++ b) = true.
Proof.
  intros Hb. induction a as [| c a IH]; simpl; [done |].
  rewrite IH. apply orb_true_r.
Qed.

Lemma contains_single (c : N) (s : pystr) : contains [c] s = true <-> In c s.
Proof.
  induction s as [| a s IH]; simpl; [by split |].
  rewrite orb_true_iff, andb_true_r, N.eqb_eq, IH. intuition auto.
Qed.

Section ResponseFacts.
Context `{PyRuntime} `{CutOffSource}.
Import RAGEngine.

Lemma patch3_lookup (advice : pystr) (actions : list pystr) (c : spec_float) :
  patch3 advice actions c !! "primary_advice"%string = Some (VStr advice) /\
  patch3 advice actions c !! "action_items"%string = Some (VList actions) /\
  patch3 advice actions c !! "confidence_score"%string = Some (VFloat c) /\
  forall k, k <> "primary_advice"%string -> k <> "action_items"%string ->
            k <> "confidence_score"%string -> patch3 advice actions c !! k = None.
Proof.
  unfold patch3. repeat split; intros; by simplify_map_eq.
Qed.

Lemma weather_is_patch3 entities ctx rtd :
  exists advice actions,
    _generate_weather_response entities ctx rtd = patch3 advice actions f0_9.
Proof.
  unfold _generate_weather_response.
  destruct (num_gt _ 80); [| destruct (num_lt _ 40)]; eauto.
Qed.

Lemma market_is_patch3 entities ctx rtd :
  exists advice actions,
    _generate_market_response entities ctx rtd = patch3 advice actions f0_8.
Proof.
  unfold _generate_market_response. destruct (contains _ _); eauto.
Qed.

Lemma fertilizer_is_patch3 entities ctx rtd :
  exists advice actions,
    _generate_fertilizer_response entities ctx rtd = patch3 advice actions f0_85.
Proof.
  unfold _generate_fertilizer_response.
  destruct (crops knowledge_base !! _); [destruct (num_gt _ 30) |]; eauto.
Qed.

(** The builders write no key besides [produced_keys]. *)
Lemma dispatch_keys intent entities ctx rtd (k : string) :
  ~ In k produced_keys -> dispatch intent entities ctx rtd !! k = None.
Proof.
  intros Hk. simpl in Hk.
  assert (k <> "primary_advice"%string /\ k <> "action_items"%string /\
          k <> "confidence_score"%string /\ k <> "warnings"%string)
    as (H1 & H2 & H3 & H4) by (repeat split; intros ->; apply Hk; auto 6).
  unfold dispatch.
  destruct (_ || _).
  { destruct (weather_is_patch3 entities ctx rtd) as (a & b & ->).
    by apply patch3_lookup. }
  destruct (String.eqb intent "market").
  { destruct (market_is_patch3 entities ctx rtd) as (a & b & ->).
    by apply patch3_lookup. }
  destruct (String.eqb intent "fertilizer").
  { destruct (fertilizer_is_patch3 entities ctx rtd) as (a & b & ->).
    by apply patch3_lookup. }
  destruct (String.eqb intent "pest").
  { unfold _generate_pest_response. destruct (num_gt _ 75); by simplify_map_eq. }
  destruct (String.eqb intent "scheme").
  { unfold _generate_scheme_response. by simplify_map_eq. }
  unfold _generate_general_response. by simplify_map_eq.
Qed.

(** C5. For the intent [weather] or [irrigation], when the snapshot has
    a humidity above 80 the response carries the action items
    [Skip irrigation today] and [Monitor for fungal diseases], the
    confidence 0.9, and an advice that reports the conditions and then
    flags the high humidity. *)
Theorem generate_response_high_humidity
    (intent : string) (entities : gmap string pystr) (ctx : context)
    (rtd : real_time_data) (h : num) :
  intent = "weather"%string \/ intent = "irrigation"%string ->
  humidity (current_of rtd) = Some h ->
  num_gt h 80 = true ->
  let r := generate_response intent entities ctx rtd in
  r !! "action_items"%string
    = Some (VList [py "Skip irrigation today"; py "Monitor for fungal diseases"]) /\
  r !! "confidence_score"%string = Some (VFloat f0_9) /\
  exists conditions,
    r !! "primary_advice"%string
      = Some (VStr (conditions ++
           py "High humidity detected. Delay irrigation and avoid fungicide spray.")) /\
    contains (py "High humidity")
      (conditions ++
         py "High humidity detected. Delay irrigation and avoid fungicide spray.") = true.
Proof.
  intros Hintent Hh Hgt r. subst r. unfold generate_response, dispatch.
  assert (String.eqb intent "weather" || String.eqb intent "irrigation" = true) as ->
    by (destruct Hintent as [-> | ->]; reflexivity).
  unfold _generate_weather_response. rewrite Hh. simpl default. rewrite Hgt.
  split; [| split].
  - apply lookup_union_Some_l, patch3_lookup.
  - apply lookup_union_Some_l, patch3_lookup.
  - eexists. split.
    + apply lookup_union_Some_l, patch3_lookup.
    + by apply contains_app_r.
Qed.

(** C6. For the intent [market] the action items are the rising-price
    pair exactly when the change string of the snapshot (the value of
    [change] in its [market] dict, ["N/A"] when either key is absent)
    contains the character [+], and the declining-price pair exactly
    when it does not; the confidence is 0.8 in both cases. *)
Theorem generate_response_market
    (entities : gmap string pystr) (ctx : context) (rtd : real_time_data) :
  let chg :=
    match market rtd with
    | Some m => match change m with Some c => c | None => py "N/A" end
    | None => py "N/A"
    end in
  let r := generate_response "market" entities ctx rtd in
  (r !! "action_items"%string
     = Some (VList [py "Sell immediately if ready";
                    py "Check nearby mandis for best rates"])
   <-> In 43 chg) /\
  (r !! "action_items"%string
     = Some (VList [py "Store safely if possible";
                    py "Monitor price trends for 1 week"])
   <-> ~ In 43 chg) /\
  r !! "confidence_score"%string = Some (VFloat f0_8).
Proof.
  intros chg r. subst r. unfold generate_response, dispatch. simpl orb. cbv iota.
  change (String.eqb "market" "market") with true. cbv iota.
  unfold _generate_market_response.
  assert (Hchg : default (py "N/A") (change (market_of rtd)) = chg).
  { subst chg. unfold market_of. destruct (market rtd) as [m |]; [| reflexivity].
    simpl. by destruct (change m). }
  rewrite Hchg. clear Hchg.
  change (py "+") with [43].
  pose proof (contains_single 43 chg) as Hplus.
  destruct (contains [43] chg).
  - assert (Hin : In 43 chg) by by apply Hplus.
    rewrite !(lookup_union_Some_l _ _ _ _ (proj1 (proj2 (patch3_lookup _ _ _)))).
    rewrite (lookup_union_Some_l _ _ _ _ (proj1 (proj2 (proj2 (patch3_lookup _ _ _))))).
    repeat split; first [done | intros Heq; discriminate Heq].
  - assert (Hnin : ~ In 43 chg) by (intros Hin; by apply Hplus in Hin).
    rewrite !(lookup_union_Some_l _ _ _ _ (proj1 (proj2 (patch3_lookup _ _ _)))).
    rewrite (lookup_union_Some_l _ _ _ _ (proj1 (proj2 (proj2 (patch3_lookup _ _ _))))).
    repeat split; first [done | intros Heq; discriminate Heq].
Qed.

Ltac not_produced :=
  let E := fresh "E" in
  simpl; intros [E | [E | [E | [E | []]]]]; discriminate E.




(** C9. [generate_response] keeps the base value of every key the
    dispatched builder does not write: [detailed_explanation] stays
    empty and [sources] stays the sources of the context for every
    intent, [warnings] stays empty and [confidence_score] stays 0.85
    unless the builder writes them; the weather, market and fertilizer
    builders write no warnings. *)
Theorem generate_response_frame
    (intent : string) (entities : gmap string pystr) (ctx : context)
    (rtd : real_time_data) :
  let patch := dispatch intent entities ctx rtd in
  let r := generate_response intent entities ctx rtd in
  (forall k, patch !! k = None -> r !! k = base_response ctx !! k) /\
  r !! "detailed_explanation"%string = Some (VStr []) /\
  r !! "sources"%string = Some (VList (sources ctx)) /\
  (patch !! "warnings"%string = None -> r !! "warnings"%string = Some (VList [])) /\
  (patch !! "confidence_score"%string = None ->
     r !! "confidence_score"%string = Some (VFloat f0_85)) /\
  (In intent ["weather"; "irrigation"; "market"; "fertilizer"]%string ->
     r !! "warnings"%string = Some (VList [])).
Proof.
  intros patch r. subst patch r. unfold generate_response.
  assert (Hframe : forall k, dispatch intent entities ctx rtd !! k = None ->
            (dispatch intent entities ctx rtd ∪ base_response ctx) !! k
            = base_response ctx !! k)
    by (intros k Hk; by apply lookup_union_r).
  split; [exact Hframe |].
  split; [rewrite Hframe; [done | apply dispatch_keys; not_produced] |].
  split; [rewrite Hframe; [done | apply dispatch_keys; not_produced] |].
  split; [intros Hw; by rewrite Hframe |].
  split; [intros Hc; by rewrite Hframe |].
  intros Hin. rewrite Hframe; [done |].
  unfold dispatch. simpl in Hin.
  destruct Hin as [<- | [<- | [<- | [<- | []]]]]; simpl.
  - destruct (weather_is_patch3 entities ctx rtd) as (a & b & ->).
    by apply patch3_lookup.
  - destruct (weather_is_patch3 entities ctx rtd) as (a & b & ->).
    by apply patch3_lookup.
  - destruct (market_is_patch3 entities ctx rtd) as (a & b & ->).
    by apply patch3_lookup.
  - destruct (fertilizer_is_patch3 entities ctx rtd) as (a & b & ->).
    by apply patch3_lookup.
Qed.

(** C10. The crop table of the knowledge base holds [wheat] and [rice]
    only, while [extract_entities] returns each of its seven crops on
    some text; so for an entity crop among cotton, sugarcane, potato,
    tomato and onion, [retrieve_context] gives the context it gives
    without a crop, and [_generate_fertilizer_response] gives the
    general NPK 120:60:60 advice with its two action items. *)
Theorem uncovered_crops_fall_back :
  dom (crops knowledge_base) = {[ py "wheat"; py "rice" ]} /\
  (forall c, In c (map fst IndicBERTProcessor.crops) ->
     IndicBERTProcessor.extract_entities c !! "crop"%string = Some c) /\
  map fst IndicBERTProcessor.crops = py "wheat" :: py "rice" :: uncovered_crops /\
  forall crop, In crop uncovered_crops ->
    forall (intent : string) (entities : gmap string pystr) (query : pystr)
           (ctx : context) (rtd : real_time_data),
      entities !! "crop"%string = Some crop ->
      retrieve_context intent entities query
        = retrieve_context intent (delete "crop"%string entities) query /\
      _generate_fertilizer_response entities ctx rtd
        = patch3 (py "General fertilizer recommendation: NPK 120:60:60 kg/hectare")
            [py "Soil test recommended"; py "Split application advised"] f0_85.
Proof.
  split; [| split; [| split]].
  - unfold knowledge_base. simpl. rewrite !dom_insert_L, dom_empty_L. set_solver.
  - intros c Hc. simpl in Hc. unfold IndicBERTProcessor.extract_entities.
    destruct Hc as [<- | [<- | [<- | [<- | [<- | [<- | [<- | []]]]]]]];
      rewrite str_lower_ascii by reflexivity;
      rewrite quantity_search_ascii by reflexivity;
      vm_compute; reflexivity.
  - reflexivity.
  - intros crop Hcrop intent entities query ctx rtd Hent.
    assert (Hkb : crops knowledge_base !! crop = None).
    { simpl in Hcrop.
      destruct Hcrop as [<- | [<- | [<- | [<- | [<- | []]]]]];
        vm_compute; reflexivity. }
    split.
    + unfold retrieve_context. by rewrite Hent, Hkb, lookup_delete_eq.
    + unfold _generate_fertilizer_response. rewrite Hent. simpl default.
      by rewrite Hkb.
Qed.
End ResponseFacts.

Lemma generate_response_high_humidity_witness :
  let rtd := {| weather := Some {| current := Some {|
                  temperature := None; humidity := Some (Int 85) |} |};
                market := None |} in
  let ctx := RAGEngine.retrieve_context "weather" ∅ (py "aaj mausam kaisa hai") in
  let r := RAGEngine.generate_response "weather" ∅ ctx rtd in
  r !! "action_items"%string
    = Some (VList [py "Skip irrigation today"; py "Monitor for fungal diseases"]) /\
  r !! "confidence_score"%string = Some (VFloat f0_9) /\
  exists conditions,
    r !! "primary_advice"%string
      = Some (VStr (conditions ++
           py "High humidity detected. Delay irrigation and avoid fungicide spray.")) /\
    contains (py "High humidity")
      (conditions ++
         py "High humidity detected. Delay irrigation and avoid fungicide spray.") = true.
Proof.
  intros rtd ctx.
  exact (generate_response_high_humidity "weather" ∅ ctx rtd (Int 85)
           (or_introl eq_refl) eq_refl eq_refl).
Defined.

(** C6 on three snapshots: a change of [+5] for wheat, a change of
    [-3], and a snapshot without market data. *)
Lemma generate_response_market_witness :
  let wheat := <["crop"%string := py "wheat"]> (∅ : gmap string pystr) in
  let ctx := RAGEngine.retrieve_context "market" wheat (py "gehun ka bhav") in
  let up := {| weather := None;
               market := Some {| price := Some (Int 2100);
                                 change := Some (py "+5") |} |} in
  let down := {| weather := None;
                 market := Some {| price := Some (Int 2100);
                                   change := Some (py "-3") |} |} in
  (RAGEngine.generate_response "market" wheat ctx up !! "action_items"%string
     = Some (VList [py "Sell immediately if ready";
                    py "Check nearby mandis for best rates"]) /\
   RAGEngine.generate_response "market" wheat ctx up !! "confidence_score"%string
     = Some (VFloat f0_8)) /\
  RAGEngine.generate_response "market" wheat ctx down !! "action_items"%string
    = Some (VList [py "Store safely if possible";
                   py "Monitor price trends for 1 week"]) /\
  RAGEngine.generate_response "market" wheat ctx empty_snapshot
    !! "action_items"%string
    = Some (VList [py "Store safely if possible";
                   py "Monitor price trends for 1 week"]).
Proof.
  intros wheat ctx up down.
  destruct (generate_response_market wheat ctx up) as (Hup & _ & Hconf).
  destruct (generate_response_market wheat ctx down) as (_ & Hdown & _).
  destruct (generate_response_market wheat ctx empty_snapshot) as (_ & Hnone & _).
  split; [split; [apply Hup; by left | exact Hconf] |].
  split.
  - apply Hdown. simpl. intros [E | [E | []]]; discriminate E.
  - apply Hnone. simpl. intros [E | [E | [E | []]]]; discriminate E.
Defined.

Lemma uncovered_crops_fall_back_witness :
  let entities := IndicBERTProcessor.extract_entities (py "mujhe 5 kg aloo chahiye") in
  let ctx := RAGEngine.retrieve_context "fertilizer" entities [] in
  RAGEngine.retrieve_context "fertilizer" entities []
    = RAGEngine.retrieve_context "fertilizer" (delete "crop"%string entities) [] /\
  RAGEngine._generate_fertilizer_response entities ctx empty_snapshot
    = RAGEngine.patch3
        (py "General fertilizer recommendation: NPK 120:60:60 kg/hectare")
        [py "Soil test recommended"; py "Split application advised"] f0_85.
Proof.
  apply (proj2 (proj2 (proj2 uncovered_crops_fall_back)) (py "potato")).
  - simpl. auto.
  - vm_compute. reflexivity.
Defined.

(** ** Further properties of [extract_intent] *)

Lemma fle_zero_nonneg (a : spec_float) : nonneg a = true -> fle f0 a = true.
Proof. destruct a as [s | s | | s m e]; simpl; try done; by destruct s. Qed.

Lemma flt_false_fle (a b : spec_float) :
  nonneg a = true -> nonneg b = true -> flt b a = false -> fle a b = true.
Proof.
  destruct a as [sa | sa | | sa ma ea], b as [sb | sb | | sb mb eb];
    simpl; intros Ha Hb; try done;
    repeat match goal with
           | s : bool |- _ => destruct s; try done
           end.
  unfold flt, fle, SFltb, SFleb. simpl.
  rewrite (Z.compare_antisym ea eb).
  change (Pos.compare_cont Eq mb ma) with (Pos.compare mb ma).
  change (Pos.compare_cont Eq ma mb) with (Pos.compare ma mb).
  rewrite (Pos.compare_antisym ma mb).
  destruct (ea ?= eb)%Z; simpl; try done.
  by destruct (ma ?= mb)%positive.
Qed.

Lemma fold_pick_in {A} (key : A -> spec_float) (l : list A) (x : A) :
  In (fold_left (fun best y => if flt (key best) (key y) then y else best) l x)
     (x :: l).
Proof.
  revert x. induction l as [| y l IH]; intros x; simpl; [by left |].
  destruct (flt (key x) (key y)).
  - right. apply IH.
  - destruct (IH x) as [Hx | Hl]; [by left | by right; right].
Qed.

Section IntentMore.
Context `{PyRuntime}.
Import IndicBERTProcessor.

Lemma intent_scores_keys (text : pystr) :
  map fst (intent_scores text) = map fst intent_patterns.
Proof. unfold intent_scores. rewrite map_map. by apply map_ext. Qed.

(** X1. The confidence [extract_intent] returns is a number between 0
    and 1, whatever the text: the sentinel 0.5, or the winning score
    capped at 1.0. *)
Theorem extract_intent_confidence_in_unit_interval (text : pystr) :
  fle f0 (snd (extract_intent text)) = true /\
  fle (snd (extract_intent text)) f1 = true.
Proof.
  unfold extract_intent.
  destruct (py_max (map snd (intent_scores text))) as [top |]; [| done].
  destruct (py_max_by snd (intent_scores text)) as [best |] eqn:Hbest; [| done].
  destruct (feq top f0); [done |]. simpl.
  assert (Hb : nonneg (snd best) = true).
  { destruct (intent_scores text) as [| x l] eqn:Hs; [done |].
    injection Hbest as <-.
    pose proof (intent_scores_nonneg text) as Hall. rewrite Hs in Hall.
    rewrite List.Forall_forall in Hall. apply Hall, fold_pick_in. }
  unfold py_min2. destruct (flt f1 (snd best)) eqn:Hcap; [done |].
  split; [by apply fle_zero_nonneg | by apply flt_false_fle].
Qed.

(** X2. [extract_intent] returns one of the eight labels, and it returns
    [general] exactly when the greatest score is 0; the confidence is
    then 0.5. *)
Theorem extract_intent_label (text : pystr) :
  In (fst (extract_intent text)) intent_labels /\
  (fst (extract_intent text) = "general"%string <->
   feq (max_score (intent_scores text)) f0 = true) /\
  (fst (extract_intent text) = "general"%string ->
   snd (extract_intent text) = f0_5).
Proof.
  unfold extract_intent, max_score. rewrite py_max_by_snd.
  destruct (intent_scores text) as [| x l] eqn:Hs.
  { apply (f_equal (@length _)) in Hs. unfold intent_scores in Hs.
    rewrite length_map in Hs. discriminate Hs. }
  rewrite <- Hs.
  destruct (py_max_by snd (intent_scores text)) as [best |] eqn:Hbest;
    [| by rewrite Hs in Hbest].
  simpl.
  assert (Hin : In (fst best) (map fst intent_patterns)).
  { rewrite <- (intent_scores_keys text). apply in_map.
    rewrite Hs in Hbest |- *. injection Hbest as <-. apply fold_pick_in. }
  assert (Hne : fst best <> "general"%string).
  { simpl in Hin. intros Heq. rewrite Heq in Hin.
    repeat (destruct Hin as [Hin | Hin]; [discriminate Hin |]). done. }
  destruct (feq (snd best) f0); simpl.
  - split; [by left |]. by split.
  - split; [by right |]. split; [split; [done | discriminate] | done].
Qed.
End IntentMore.

(** ** Letter case *)


Lemma ascii_lower_upper (c : N) : ascii_lower (ascii_upper c) = ascii_lower c.
Proof.
  unfold ascii_lower, ascii_upper, in_range.
  destruct (N.leb_spec 97 c), (N.leb_spec c 122); simpl;
    repeat match goal with
           | |- context [N.leb ?a ?b] => destruct (N.leb_spec a b); simpl
           end; lia.
Qed.

Lemma ascii_upper_is_ascii (c : N) : is_ascii c = true -> is_ascii (ascii_upper c) = true.
Proof.
  unfold is_ascii, ascii_upper, in_range. intros Hc. apply N.ltb_lt in Hc.
  destruct ((97 <=? c) && (c <=? 122)); apply N.ltb_lt; lia.
Qed.




Section CaseFacts.
Context `{PyRuntime}.
Import IndicBERTProcessor.



(** X4. Matching does not see the case of ASCII letters: a text and the
    same text in capitals get the same intent, confidence and
    entities. *)
Theorem extract_ignores_ascii_case (text : pystr) :
  forallb is_ascii text = true ->
  extract_intent (map ascii_upper text) = extract_intent text /\
  extract_entities (map ascii_upper text) = extract_entities text.
Proof.
  intros Ha.
  assert (Hup : forallb is_ascii (map ascii_upper text) = true).
  { rewrite forallb_forall in Ha |- *. intros c [d [<- Hd]]%in_map_iff.
    by apply ascii_upper_is_ascii, Ha. }
  assert (Hlow : str_lower (map ascii_upper text) = str_lower text).
  { rewrite !str_lower_ascii by done. rewrite map_map.
    apply map_ext. intros c. apply ascii_lower_upper. }
  unfold extract_intent, intent_scores, extract_entities.
  by rewrite Hlow.
Qed.
End CaseFacts.


Lemma extract_ignores_ascii_case_witness :
  IndicBERTProcessor.extract_intent (map ascii_upper (py "gehun ka bhav kya hai"))
    = IndicBERTProcessor.extract_intent (py "gehun ka bhav kya hai") /\
  IndicBERTProcessor.extract_entities (map ascii_upper (py "gehun ka bhav kya hai"))
    = IndicBERTProcessor.extract_entities (py "gehun ka bhav kya hai").
Proof.
  apply (extract_ignores_ascii_case (py "gehun ka bhav kya hai")). reflexivity.
Defined.

(** ** Further properties of [extract_entities] *)

Section GroupFacts.
Variables is_digit is_space : N -> bool.

Lemma match_unit_in (us : pattern) (s u : pystr) :
  match_unit us s = Some u -> In u us /\ is_prefix u s = true.
Proof.
  induction us as [| v us IH]; simpl; [done |].
  destruct (is_prefix v s) eqn:Hv.
  - intros [= <-]. auto.
  - intros Hu. destruct (IH Hu). auto.
Qed.

Lemma spaces_unit_in (s u : pystr) :
  spaces_unit is_space s = Some u -> In u units.
Proof.
  induction s as [| c s IH]; cbn [spaces_unit].
  - intros Hu. by apply match_unit_in in Hu as [? _].
  - destruct (is_space c).
    + destruct (spaces_unit is_space s) as [v |].
      * intros [= <-]. by apply IH.
      * intros Hu. by apply match_unit_in in Hu as [? _].
    + intros Hu. by apply match_unit_in in Hu as [? _].
Qed.

Lemma digits_spaces_unit_groups (s q u : pystr) :
  digits_spaces_unit is_digit is_space s = Some (q, u) ->
  forallb is_digit q = true /\ In u units.
Proof.
  revert q. induction s as [| c s IH]; intros q; cbn [digits_spaces_unit spaces_unit].
  - destruct (match_unit units []) as [v |] eqn:Hv; simpl; [| done].
    intros [= <- <-]. split; [done |]. by apply match_unit_in in Hv as [? _].
  - assert (Hstop : option_map (pair []) (spaces_unit is_space (c :: s)) = Some (q, u) ->
              forallb is_digit q = true /\ In u units).
    { destruct (spaces_unit is_space (c :: s)) as [v |] eqn:Hv; simpl; [| done].
      intros [= <- <-]. split; [done |]. by apply spaces_unit_in in Hv. }
    destruct (is_digit c) eqn:Hc; [| exact Hstop].
    destruct (digits_spaces_unit is_digit is_space s) as [[ds v] |]; [| exact Hstop].
    intros [= <- <-]. destruct (IH ds eq_refl) as [Hds Hv].
    split; [| done]. simpl. by rewrite Hc.
Qed.

(** What the two groups of a match of the quantity pattern hold. *)
Lemma quantity_search_groups (s q u : pystr) :
  quantity_search is_digit is_space s = Some (q, u) ->
  q <> [] /\ forallb is_digit q = true /\ In u units.
Proof.
  induction s as [| c s IH]; simpl; [done |].
  destruct (is_digit c) eqn:Hc; [| exact IH].
  destruct (digits_spaces_unit is_digit is_space s) as [[ds v] |] eqn:Hds;
    [| exact IH].
  intros [= <- <-]. apply digits_spaces_unit_groups in Hds as [Hds Hv].
  split; [done |]. split; [| done]. simpl. by rewrite Hc.
Qed.
End GroupFacts.

Lemma first_hit_in (table : list (pystr * pattern)) (t c : pystr) :
  IndicBERTProcessor.first_hit table t = Some c -> In c (map fst table).
Proof.
  unfold IndicBERTProcessor.first_hit.
  destruct (List.find _ table) as [np |] eqn:Hf; simpl; [| done].
  intros [= <-]. apply find_some in Hf as [Hin _]. by apply in_map.
Qed.

Section EntityMore.
Context `{PyRuntime}.
Import IndicBERTProcessor.

Lemma set_opt_lookup_eq (k : string) (v : option pystr) (d : gmap string pystr) :
  d !! k = None -> set_opt k v d !! k = v.
Proof. intros Hd. destruct v; simpl; [by rewrite lookup_insert_eq | done]. Qed.

(** The four keys of the entity dict, read back from what the three
    scans found. *)
Lemma extract_entities_lookup (text : pystr) :
  let t := str_lower text in
  let e := extract_entities text in
  e !! "crop"%string = first_hit crops t /\
  e !! "location"%string = first_hit locations t /\
  e !! "quantity"%string = option_map fst (quantity_search re_digit re_space t) /\
  e !! "unit"%string = option_map snd (quantity_search re_digit re_space t) /\
  forall k, ~ In k entity_keys -> e !! k = None.
Proof.
  intros t e. subst e. unfold extract_entities. fold t.
  destruct (quantity_search re_digit re_space t) as [[q u] |]; simpl.
  - repeat split.
    + rewrite !lookup_insert_ne by done. rewrite set_opt_lookup_ne by done.
      by apply set_opt_lookup_eq.
    + rewrite !lookup_insert_ne by done. apply set_opt_lookup_eq.
      by rewrite set_opt_lookup_ne.
    + rewrite lookup_insert_ne by done. by rewrite lookup_insert_eq.
    + by rewrite lookup_insert_eq.
    + intros k Hk. simpl in Hk.
      rewrite !lookup_insert_ne by (intros <-; tauto).
      rewrite !set_opt_lookup_ne by (intros <-; tauto). done.
  - repeat split.
    + rewrite set_opt_lookup_ne by done. by apply set_opt_lookup_eq.
    + apply set_opt_lookup_eq. by rewrite set_opt_lookup_ne.
    + by rewrite !set_opt_lookup_ne.
    + by rewrite !set_opt_lookup_ne.
    + intros k Hk. simpl in Hk.
      rewrite !set_opt_lookup_ne by (intros <-; tauto). done.
Qed.

(** X5. Whatever the text, [extract_entities] writes no key besides
    crop, location, quantity and unit; a crop is one of the seven of its
    table, a location one of the six, a unit one of kg, quintal, ton,
    acre and hectare, and a quantity is a non-empty string of digits. *)
Theorem extract_entities_values (text : pystr) :
  let e := extract_entities text in
  (forall k, is_Some (e !! k) -> In k entity_keys) /\
  (forall c : pystr, e !! "crop"%string = Some c -> In c (map fst crops)) /\
  (forall l : pystr, e !! "location"%string = Some l -> In l (map fst locations)) /\
  (forall u : pystr, e !! "unit"%string = Some u -> In u units) /\
  (forall q : pystr, e !! "quantity"%string = Some q ->
     q <> [] /\ forallb re_digit q = true).
Proof.
  intros e. subst e.
  destruct (extract_entities_lookup text) as (Hc & Hl & Hq & Hu & Hk).
  split; [| split; [| split; [| split]]].
  - intros k [v Hv].
    destruct (in_dec string_dec k entity_keys) as [Hin | Hnin]; [done |].
    rewrite (Hk k Hnin) in Hv. discriminate Hv.
  - intros c Hcrop. rewrite Hc in Hcrop. by apply first_hit_in in Hcrop.
  - intros l Hloc. rewrite Hl in Hloc. by apply first_hit_in in Hloc.
  - intros u Hunit. rewrite Hu in Hunit.
    destruct (quantity_search _ _ _) as [[q v] |] eqn:Hs; [| done].
    injection Hunit as <-. by apply quantity_search_groups in Hs as (_ & _ & ?).
  - intros q Hqty. rewrite Hq in Hqty.
    destruct (quantity_search _ _ _) as [[q' v] |] eqn:Hs; [| done].
    injection Hqty as <-. by apply quantity_search_groups in Hs as (? & ? & _).
Qed.
End EntityMore.

(** ** Substrings and the patterns that contain them *)

Lemma contains_cons (p : pystr) (c : N) (s : pystr) :
  contains p s = true -> contains p (c :: s) = true.
Proof. intros Hp. simpl. rewrite Hp. apply orb_true_r. Qed.

Lemma contains_drop_head (a : N) (p s : pystr) :
  contains (a :: p) s = true -> contains p s = true.
Proof.
  induction s as [| c s IH]; [done |].
  cbn [contains]. intros [Hpre | Hrest]%orb_true_iff.
  - apply contains_cons. cbn [is_prefix] in Hpre.
    apply andb_true_iff in Hpre as [_ Hpre].
    destruct s; simpl; by rewrite Hpre.
  - apply contains_cons. by apply IH.
Qed.

Lemma match_here_found (p : pattern) (alt s : pystr) :
  In alt p -> is_prefix alt s = true -> is_Some (match_here p s).
Proof.
  induction p as [| a p IH]; [done |]. intros [-> | Hin] Hpre; simpl.
  - by rewrite Hpre.
  - destruct (is_prefix a s); [done | by apply IH].
Qed.

(** A text that contains one of the alternatives is found by the
    pattern. *)
Lemma contains_re_search (p : pattern) (alt s : pystr) :
  In alt p -> contains alt s = true -> re_search p s = true.
Proof.
  intros Hin. induction s as [| c s IH].
  - simpl. rewrite orb_false_r. intros Hpre.
    by destruct (match_here_found p alt [] Hin Hpre) as [n ->].
  - cbn [contains re_search]. intros [Hpre | Hrest]%orb_true_iff.
    + by destruct (match_here_found p alt (c :: s) Hin Hpre) as [n ->].
    + destruct (match_here p (c :: s)); [done | by apply IH].
Qed.

Section PriceFacts.
Context `{PyRuntime}.
Import IndicBERTProcessor RAGEngine.

(** X6. The crop patterns are searched as substrings, and [rice] occurs
    in [price]: for every text with the word price the crop entity is
    [wheat] when a wheat name occurs and [rice] otherwise, whatever
    other crop the text names, and the context retrieved for it opens
    with the source and the facts of that crop. *)
Theorem price_is_read_as_rice (text : pystr) (intent : string) :
  contains (py "price") (str_lower text) = true ->
  let crop := if re_search wheat_names (str_lower text) then py "wheat" else py "rice" in
  let e := extract_entities text in
  let ctx := retrieve_context intent e text in
  e !! "crop"%string = Some crop /\
  head (sources ctx) = Some (py "Crop Database - " ++ title crop) /\
  exists info, crops knowledge_base !! crop = Some info /\
    head (facts ctx) = Some (py "Sowing season: " ++ sowing_season info).
Proof.
  intros Hprice crop e ctx.
  assert (Hrice : re_search [py "chawal"; py "rice"; [2343; 2366; 2344];
                             [2330; 2366; 2357; 2354]] (str_lower text) = true).
  { apply (contains_re_search _ (py "rice")); [simpl; auto |].
    by apply (contains_drop_head 112). }
  assert (Hcrop : e !! "crop"%string = Some crop).
  { subst e. rewrite (proj1 (extract_entities_lookup text)).
    unfold first_hit, IndicBERTProcessor.crops. cbn [List.find snd fst]. subst crop.
    fold wheat_names. destruct (re_search wheat_names (str_lower text)); [done |].
    by rewrite Hrice. }
  split; [exact Hcrop |].
  subst ctx. unfold retrieve_context. rewrite Hcrop.
  assert (Hkb : exists info, crops knowledge_base !! crop = Some info).
  { subst crop. destruct (re_search wheat_names (str_lower text));
      [exists wheat_info | exists rice_info]; vm_compute; reflexivity. }
  destruct Hkb as [info Hinfo]. rewrite Hinfo.
  destruct (String.eqb intent "irrigation"); [| destruct (String.eqb intent "market")];
    (split; [reflexivity | by exists info]).
Qed.
End PriceFacts.

Lemma price_is_read_as_rice_witness :
  let text := py "pyaz ka price kya hai" in
  let e := IndicBERTProcessor.extract_entities text in
  let ctx := RAGEngine.retrieve_context "market" e text in
  e !! "crop"%string = Some (py "rice") /\
  head (RAGEngine.sources ctx) = Some (py "Crop Database - Rice") /\
  exists info, RAGEngine.crops RAGEngine.knowledge_base !! py "rice" = Some info /\
    head (RAGEngine.facts ctx)
    = Some (py "Sowing season: " ++ RAGEngine.sowing_season info).
Proof.
  exact (price_is_read_as_rice (py "pyaz ka price kya hai") "market" eq_refl).
Defined.

(** ** A quantity written out is read back *)

Lemma spaces_unit_blanks (k : nat) (u : pystr) :
  In u units -> spaces_unit ascii_space (repeat 32 k ++ u) = Some u.
Proof.
  intros Hu. induction k as [| k IH].
  - simpl in Hu. simpl.
    repeat (destruct Hu as [<- | Hu]; [reflexivity |]). done.
  - cbn [repeat app spaces_unit].
    change (ascii_space 32) with true. cbv iota. by rewrite IH.
Qed.

Lemma digits_spaces_unit_blanks (k : nat) (u : pystr) :
  In u units ->
  digits_spaces_unit ascii_digit ascii_space (repeat 32 k ++ u) = Some ([], u).
Proof.
  intros Hu. destruct k as [| k].
  - simpl in Hu. simpl.
    repeat (destruct Hu as [<- | Hu]; [reflexivity |]). done.
  - cbn [repeat app digits_spaces_unit].
    change (ascii_digit 32) with false. cbv iota.
    change (32 :: repeat 32 k ++ u) with (repeat 32 (S k) ++ u).
    by rewrite spaces_unit_blanks.
Qed.

Lemma digits_spaces_unit_run (ds rest u : pystr) :
  forallb ascii_digit ds = true ->
  digits_spaces_unit ascii_digit ascii_space rest = Some ([], u) ->
  digits_spaces_unit ascii_digit ascii_space (ds ++ rest) = Some (ds, u).
Proof.
  intros Hds Hrest. induction ds as [| c ds IH]; [done |].
  simpl in Hds. apply andb_true_iff in Hds as [Hc Hds].
  cbn [app digits_spaces_unit]. rewrite Hc. by rewrite IH.
Qed.

Lemma plain_ascii_lower (s : pystr) :
  forallb plain_ascii s = true ->
  forallb is_ascii s = true /\ map ascii_lower s = s.
Proof.
  induction s as [| c s IH]; [done |]. simpl.
  intros [Hc Hs]%andb_true_iff. destruct (IH Hs) as [Ha Hl].
  unfold plain_ascii in Hc. apply andb_true_iff in Hc as [Hc1 Hc2].
  apply negb_true_iff in Hc2.
  rewrite Hc1, Ha, Hl. unfold ascii_lower. by rewrite Hc2.
Qed.

Lemma ascii_digit_plain (c : N) : ascii_digit c = true -> plain_ascii c = true.
Proof.
  unfold ascii_digit, plain_ascii, in_range, is_ascii.
  intros [H1 H2]%andb_true_iff. apply N.leb_le in H1, H2.
  apply andb_true_iff. split; [apply N.ltb_lt; lia |].
  apply negb_true_iff, andb_false_iff. left. apply N.leb_gt. lia.
Qed.

Section RoundTrip.
Context `{PyRuntime}.
Import IndicBERTProcessor.

(** X7. A quantity written as a run of ASCII digits, any number of
    blanks and one of the five unit names is read back as it was
    written: the quantity is the whole run of digits and the unit is
    that name. *)
Theorem quantity_written_is_read_back (ds : pystr) (k : nat) (u : pystr) :
  ds <> [] ->
  forallb ascii_digit ds = true ->
  In u units ->
  let e := extract_entities (ds ++ repeat 32 k ++ u) in
  e !! "quantity"%string = Some ds /\ e !! "unit"%string = Some u.
Proof.
  intros Hne Hds Hu e. subst e.
  set (text := ds ++ repeat 32 k ++ u).
  assert (Hplain : forallb plain_ascii text = true).
  { unfold text. rewrite !forallb_app. repeat (apply andb_true_iff; split).
    - apply forallb_forall. intros c Hc. apply ascii_digit_plain.
      rewrite forallb_forall in Hds. by apply Hds.
    - apply forallb_forall. intros c Hc. by apply repeat_spec in Hc as ->.
    - simpl in Hu. repeat (destruct Hu as [<- | Hu]; [reflexivity |]). done. }
  destruct (plain_ascii_lower text Hplain) as [Hascii Hlow].
  assert (Hsearch : quantity_search re_digit re_space (str_lower text) = Some (ds, u)).
  { rewrite str_lower_ascii, Hlow by done.
    rewrite quantity_search_ascii by done. unfold text.
    destruct ds as [| d ds]; [done |].
    simpl in Hds. apply andb_true_iff in Hds as [Hd Hds].
    cbn [app quantity_search quantity_here]. rewrite Hd.
    rewrite (digits_spaces_unit_run ds _ u Hds (digits_spaces_unit_blanks k u Hu)).
    done. }
  destruct (extract_entities_lookup text) as (_ & _ & Hq & Hun & _).
  rewrite Hq, Hun, Hsearch. done.
Qed.
End RoundTrip.

Lemma quantity_written_is_read_back_witness :
  let e := IndicBERTProcessor.extract_entities (py "250" ++ repeat 32 2%nat ++ py "quintal") in
  e !! "quantity"%string = Some (py "250") /\ e !! "unit"%string = Some (py "quintal").
Proof.
  apply (quantity_written_is_read_back (py "250") 2 (py "quintal")).
  - discriminate.
  - reflexivity.
  - simpl. auto.
Defined.

(** ** Further properties of [detect_language] *)

Lemma filter_bool_none_of {A} (f : A -> bool) (l : list A) :
  Forall (fun x => f x = false) l -> List.filter f l = [].
Proof.
  intros Hl. apply filter_none. intros x Hx.
  rewrite List.Forall_forall in Hl. by apply Hl.
Qed.

(** X8. [detect_language] looks at Devanagari code points and Latin
    letters only: digits, blanks, punctuation and the letters of any
    other script, wherever they stand in the text, do not change its
    answer. *)
Theorem detect_language_ignores_other_scripts (a b c : pystr) :
  Forall other_script b ->
  IndicBERTProcessor.detect_language (a ++ b ++ c)
  = IndicBERTProcessor.detect_language (a ++ c).
Proof.
  intros Hb. unfold IndicBERTProcessor.detect_language,
    IndicBERTProcessor.hindi_chars, IndicBERTProcessor.english_chars.
  rewrite !List.filter_app.
  assert (Hh : List.filter (in_range 2304 2431) b = []).
  { apply filter_bool_none_of. eapply Forall_impl; [exact Hb |].
    intros x [Hx _]. apply not_true_iff_false. by rewrite in_range_spec. }
  assert (He : List.filter ascii_alpha b = []).
  { apply filter_bool_none_of. eapply Forall_impl; [exact Hb |].
    intros x [_ Hx]. apply not_true_iff_false. unfold ascii_alpha.
    by rewrite orb_true_iff, !in_range_spec. }
  by rewrite Hh, He.
Qed.

Lemma detect_language_ignores_other_scripts_witness :
  IndicBERTProcessor.detect_language (py "kal " ++ [2965; 2979; 2991; 32; 49; 50] ++ py "baje")
  = IndicBERTProcessor.detect_language (py "kal " ++ py "baje").
Proof.
  apply (detect_language_ignores_other_scripts (py "kal ")
           [2965; 2979; 2991; 32; 49; 50] (py "baje")).
  repeat constructor; unfold is_devanagari, is_latin; lia.
Defined.

(** ** Further properties of [RAGEngine] *)

Section EngineMore.
Context `{PyRuntime} `{CutOffSource}.
Import RAGEngine.

(** X9. A context has a source exactly when it has content: [sources]
    is empty if and only if [facts] and [recommendations] are both
    empty; and it never names more than two sources. *)
Theorem context_sources_iff_content
    (intent : string) (entities : gmap string pystr) (query : pystr) :
  let ctx := retrieve_context intent entities query in
  (sources ctx = [] <-> facts ctx = [] /\ recommendations ctx = []) /\
  (length (sources ctx) <= 2)%nat.
Proof.
  intros ctx. subst ctx. unfold retrieve_context.
  destruct (entities !! "crop"%string) as [crop |];
    [destruct (crops knowledge_base !! crop) as [info |] |];
    (destruct (String.eqb intent "irrigation");
       [| destruct (String.eqb intent "market")]);
    cbn [sources facts recommendations app length];
    (split; [split; [intros Hs; try discriminate Hs; done
                    | intros [Hf Hr]; try discriminate Hf; try discriminate Hr; done]
            | lia]).
Qed.

(** X10. For a humidity from 76 to 80 the two builders that read it
    disagree: the weather builder (threshold 80) reports good conditions
    and regular irrigation, the pest builder (threshold 75) reports a
    fungal risk and asks for a preventive fungicide. *)
Theorem humidity_76_to_80_splits_builders
    (hum : Z) (entities : gmap string pystr) (ctx : context) (rtd : real_time_data) :
  (75 < hum <= 80)%Z ->
  humidity (current_of rtd) = Some (Int hum) ->
  generate_response "weather" entities ctx rtd !! "action_items"%string
    = Some (VList [py "Continue regular irrigation";
                   py "Good time for field operations"]) /\
  generate_response "pest" entities ctx rtd !! "action_items"%string
    = Some (VList [py "Spray preventive fungicide"; py "Improve air circulation"]).
Proof.
  intros Hrange Hhum. unfold generate_response, dispatch.
  change (String.eqb "weather" "weather" || String.eqb "weather" "irrigation") with true.
  change (String.eqb "pest" "weather" || String.eqb "pest" "irrigation") with false.
  change (String.eqb "pest" "market") with false.
  change (String.eqb "pest" "fertilizer") with false.
  change (String.eqb "pest" "pest") with true. cbv iota.
  unfold _generate_weather_response, _generate_pest_response.
  rewrite Hhum. cbn [from_option id num_gt num_lt].
  assert ((80 <? hum)%Z = false) as -> by (apply Z.ltb_ge; lia).
  assert ((hum <? 40)%Z = false) as -> by (apply Z.ltb_ge; lia).
  assert ((75 <? hum)%Z = true) as -> by (apply Z.ltb_lt; lia).
  split; apply lookup_union_Some_l.
  - apply patch3_lookup.
  - by simplify_map_eq.
Qed.

(** X11. For the five intents whose builder is in the listing the
    response always carries a non-empty advice and exactly two action
    items: the empty advice and the empty action list of the base
    response never reach the caller. *)
Theorem coded_response_shape
    (intent : string) (entities : gmap string pystr) (ctx : context)
    (rtd : real_time_data) :
  In intent coded_intents ->
  exists advice a1 a2,
    generate_response intent entities ctx rtd !! "primary_advice"%string
      = Some (VStr advice) /\
    advice <> [] /\
    generate_response intent entities ctx rtd !! "action_items"%string
      = Some (VList [a1; a2]).
Proof.
  assert (Hlen : forall (lit x : pystr), (0 < length lit)%nat -> lit ++ x <> []).
  { intros lit x Hlit Heq. apply (f_equal (@length _)) in Heq.
    rewrite length_app in Heq. simpl in Heq. lia. }
  assert (Hpatch : forall advice a1 a2 c,
            advice <> [] ->
            exists advice' b1 b2,
              (patch3 advice [a1; a2] c ∪ base_response ctx) !! "primary_advice"%string
                = Some (VStr advice') /\ advice' <> [] /\
              (patch3 advice [a1; a2] c ∪ base_response ctx) !! "action_items"%string
                = Some (VList [b1; b2])).
  { intros advice a1 a2 c Hadv. exists advice, a1, a2.
    split; [apply lookup_union_Some_l, patch3_lookup |].
    split; [done | apply lookup_union_Some_l, patch3_lookup]. }
  simpl. intros [<- | [<- | [<- | [<- | [<- | []]]]]];
    unfold generate_response, dispatch; simpl.
  - unfold _generate_weather_response.
    destruct (num_gt _ 80); [| destruct (num_lt _ 40)];
      apply Hpatch; rewrite <- !app_assoc; by apply Hlen; simpl; lia.
  - unfold _generate_weather_response.
    destruct (num_gt _ 80); [| destruct (num_lt _ 40)];
      apply Hpatch; rewrite <- !app_assoc; by apply Hlen; simpl; lia.
  - unfold _generate_market_response.
    destruct (contains _ _);
      apply Hpatch; rewrite <- !app_assoc; by apply Hlen; simpl; lia.
  - unfold _generate_fertilizer_response.
    destruct (crops knowledge_base !! _); [destruct (num_gt _ 30) |];
      apply Hpatch; try done;
      rewrite <- !app_assoc; by apply Hlen; simpl; lia.
  - unfold _generate_pest_response.
    destruct (num_gt _ 75);
      (eexists _, _, _; split; [apply lookup_union_Some_l; by simplify_map_eq |];
       split; [| apply lookup_union_Some_l; by simplify_map_eq];
       first [done | rewrite <- !app_assoc; by apply Hlen; simpl; lia]).
Qed.

(** X12. With no crop entity the fertilizer builder answers for wheat,
    with the wheat recipe of the knowledge base, while the context
    retrieved for the same entities is empty: the response recommends
    NPK 120:60:40 and names no source. *)
Theorem fertilizer_without_crop_is_wheat
    (entities : gmap string pystr) (query : pystr) (rtd : real_time_data) :
  entities !! "crop"%string = None ->
  let ctx := retrieve_context "fertilizer" entities query in
  let r := generate_response "fertilizer" entities ctx rtd in
  ctx = {| sources := []; facts := []; recommendations := [] |} /\
  r !! "sources"%string = Some (VList []) /\
  exists timing,
    r !! "primary_advice"%string
    = Some (VStr (py "For wheat: Apply NPK 120:60:40 kg/hectare. " ++ timing)).
Proof.
  intros Hcrop ctx r.
  assert (Hctx : ctx = {| sources := []; facts := []; recommendations := [] |}).
  { subst ctx. unfold retrieve_context. by rewrite Hcrop. }
  split; [exact Hctx |]. subst r. rewrite Hctx. split.
  - unfold generate_response.
    rewrite lookup_union_r
      by (apply dispatch_keys; simpl; intros [E | [E | [E | [E | []]]]]; discriminate E).
    done.
  - unfold generate_response, dispatch. simpl orb. cbv iota.
    change (String.eqb "fertilizer" "market") with false.
    change (String.eqb "fertilizer" "fertilizer") with true. cbv iota.
    unfold _generate_fertilizer_response. rewrite Hcrop.
    cbn [from_option id].
    assert (Hkb : crops knowledge_base !! py "wheat" = Some wheat_info)
      by (vm_compute; reflexivity).
    rewrite Hkb.
    destruct (num_gt _ 30); eexists;
      (erewrite lookup_union_Some_l by apply (proj1 (patch3_lookup _ _ _));
       reflexivity).
Qed.

(** X13. An intent without a branch of its own is handled as the
    general one: for every label other than weather, irrigation, market,
    fertilizer, pest and scheme (so for [crop], which [extract_intent]
    can return, as for [general]) the response is that of the general
    builder and the context holds nothing beyond the crop facts. *)
Theorem intents_without_branch
    (intent : string) (entities : gmap string pystr) (query : pystr)
    (ctx : context) (rtd : real_time_data) :
  ~ In intent branch_intents ->
  generate_response intent entities ctx rtd
    = _generate_general_response entities ctx rtd ∪ base_response ctx /\
  retrieve_context intent entities query
    = retrieve_context "general" entities query /\
  recommendations (retrieve_context intent entities query) = [].
Proof.
  intros Hnot. simpl in Hnot.
  assert (Hneq : forall l, In l branch_intents -> String.eqb intent l = false).
  { intros l Hl. apply String.eqb_neq. intros ->. by apply Hnot. }
  unfold generate_response, dispatch, retrieve_context.
  rewrite !Hneq by (simpl; auto 10).
  change (String.eqb "general" "irrigation") with false.
  change (String.eqb "general" "market") with false.
  cbv iota. cbn [orb].
  split; [done |]. split; [done |].
  by destruct (entities !! "crop"%string) as [c |];
    [destruct (crops knowledge_base !! c) |].
Qed.
End EngineMore.

Lemma humidity_76_to_80_splits_builders_witness :
  let rtd := {| weather := Some {| current := Some {|
                  temperature := Some (Int 31); humidity := Some (Int 78) |} |};
                market := None |} in
  let ctx := RAGEngine.retrieve_context "pest" ∅ [] in
  RAGEngine.generate_response "weather" ∅ ctx rtd !! "action_items"%string
    = Some (VList [py "Continue regular irrigation";
                   py "Good time for field operations"]) /\
  RAGEngine.generate_response "pest" ∅ ctx rtd !! "action_items"%string
    = Some (VList [py "Spray preventive fungicide"; py "Improve air circulation"]).
Proof.
  intros rtd ctx.
  apply (humidity_76_to_80_splits_builders 78 ∅ ctx rtd); [lia | reflexivity].
Defined.

Lemma coded_response_shape_witness :
  exists advice a1 a2,
    RAGEngine.generate_response "market" ∅
      (RAGEngine.retrieve_context "market" ∅ []) empty_snapshot
      !! "primary_advice"%string = Some (VStr advice) /\
    advice <> [] /\
    RAGEngine.generate_response "market" ∅
      (RAGEngine.retrieve_context "market" ∅ []) empty_snapshot
      !! "action_items"%string = Some (VList [a1; a2]).
Proof.
  apply (coded_response_shape "market"). simpl. auto.
Defined.

Lemma fertilizer_without_crop_is_wheat_witness :
  let ctx := RAGEngine.retrieve_context "fertilizer" ∅ (py "khad kab dalein") in
  let r := RAGEngine.generate_response "fertilizer" ∅ ctx empty_snapshot in
  ctx = {| RAGEngine.sources := []; RAGEngine.facts := [];
           RAGEngine.recommendations := [] |} /\
  r !! "sources"%string = Some (VList []) /\
  exists timing,
    r !! "primary_advice"%string
    = Some (VStr (py "For wheat: Apply NPK 120:60:40 kg/hectare. " ++ timing)).
Proof.
  exact (fertilizer_without_crop_is_wheat ∅ (py "khad kab dalein") empty_snapshot
           (lookup_empty _)).
Defined.

Lemma intents_without_branch_witness :
  let ctx := RAGEngine.retrieve_context "crop" ∅ (py "fasal") in
  RAGEngine.generate_response "crop" ∅ ctx empty_snapshot
    = RAGEngine._generate_general_response ∅ ctx empty_snapshot
      ∪ RAGEngine.base_response ctx /\
  RAGEngine.retrieve_context "crop" ∅ (py "fasal")
    = RAGEngine.retrieve_context "general" ∅ (py "fasal") /\
  RAGEngine.recommendations (RAGEngine.retrieve_context "crop" ∅ (py "fasal")) = [].
Proof.
  intros ctx. apply (intents_without_branch "crop" ∅ (py "fasal") ctx empty_snapshot).
  simpl. intros [E | [E | [E | [E | [E | [E | []]]]]]]; discriminate E.
Defined.

(** ** Scores of matched intents are not rounded away *)

Lemma Zdigits2_log2 (m : Z) : (1 <= m)%Z -> Zdigits2 m = (Z.log2 m + 1)%Z.
Proof.
  destruct m as [| p | p]; try lia. intros _. simpl.
  assert (Hsize : forall q, digits2_pos q = Pos.size q)
    by (induction q; simpl; congruence).
  rewrite Hsize. destruct p; simpl; lia.
Qed.

Lemma shr_1_half (r : shr_record) :
  (0 <= shr_m r)%Z -> shr_m (shr_1 r) = Z.shiftr (shr_m r) 1.
Proof.
  destruct r as [m r s]. simpl.
  destruct m as [| [p | p |] | p]; simpl; intros; try done; lia.
Qed.

Lemma shr_m_iter (p : positive) (r : shr_record) :
  (0 <= shr_m r)%Z ->
  shr_m (SpecFloat.iter_pos shr_1 p r) = Z.shiftr (shr_m r) (Z.pos p).
Proof.
  revert r. induction p as [p IH | p IH |]; intros r Hr; simpl.
  - assert (H1 : (0 <= shr_m (shr_1 r))%Z) by by apply shr_1_nonneg.
    assert (H2 : (0 <= shr_m (SpecFloat.iter_pos shr_1 p (shr_1 r)))%Z)
      by (apply iter_pos_keeps; [apply shr_1_nonneg | done]).
    rewrite IH, IH, shr_1_half by done.
    rewrite !Z.shiftr_shiftr by lia. f_equal. lia.
  - assert (H2 : (0 <= shr_m (SpecFloat.iter_pos shr_1 p r))%Z)
      by (apply iter_pos_keeps; [apply shr_1_nonneg | done]).
    rewrite IH, IH by done. rewrite Z.shiftr_shiftr by lia. f_equal. lia.
  - by apply shr_1_half.
Qed.

(** The truncation that [binary_round_aux] starts and ends with keeps a
    mantissa of a value above the subnormal range positive, and keeps
    its order of magnitude. *)
Lemma shr_fexp_magnitude (m e : Z) (l : location) :
  (1 <= m)%Z -> (-1074 < Z.log2 m + 1 + e)%Z ->
  (1 <= shr_m (fst (shr_fexp prec emax m e l)))%Z /\
  (Z.log2 (shr_m (fst (shr_fexp prec emax m e l))) + snd (shr_fexp prec emax m e l)
   = Z.log2 m + e)%Z /\
  (-1074 <= snd (shr_fexp prec emax m e l))%Z.
Proof.
  intros Hm Hmag. unfold shr_fexp, shr. rewrite Zdigits2_log2 by done.
  assert (Hrec : shr_m (shr_record_of_loc m l) = m) by by destruct l as [| []].
  destruct (fexp prec emax (Z.log2 m + 1 + e) - e)%Z as [| k | k] eqn:Hk;
    unfold fexp, SpecFloat.emin, prec, emax in Hk; simpl fst; simpl snd.
  - rewrite Hrec. lia.
  - rewrite shr_m_iter by (rewrite Hrec; lia). rewrite Hrec.
    assert (Hle : (Z.pos k <= Z.log2 m)%Z) by lia.
    assert (Hnz : Z.shiftr m (Z.pos k) <> 0%Z).
    { rewrite Z.shiftr_eq_0_iff. lia. }
    assert (Hnn : (0 <= Z.shiftr m (Z.pos k))%Z) by (apply Z.shiftr_nonneg; lia).
    rewrite Z.log2_shiftr by lia. lia.
  - rewrite Hrec. lia.
Qed.

Lemma round_nearest_even_bounds (m : Z) (l : location) :
  (m <= round_nearest_even m l <= m + 1)%Z.
Proof.
  destruct l as [| []]; simpl; try lia. destruct (Z.even m); lia.
Qed.

Lemma binary_round_aux_magnitude (m : positive) (e : Z) (l : location) :
  (-1074 < Z.log2 (Z.pos m) + 1 + e)%Z ->
  at_least_pow2 (Z.log2 (Z.pos m) + e)
    (binary_round_aux prec emax false (Z.pos m) e l).
Proof.
  intros Hmag. unfold binary_round_aux.
  destruct (shr_fexp_magnitude (Z.pos m) e l) as (H1 & H2 & H3); [lia | done |].
  destruct (shr_fexp prec emax (Z.pos m) e l) as [r1 e1].
  simpl fst in *. simpl snd in *.
  pose proof (round_nearest_even_bounds (shr_m r1) (loc_of_shr_record r1)) as Hr.
  set (m1 := round_nearest_even (shr_m r1) (loc_of_shr_record r1)) in *.
  assert (Hlog : (Z.log2 (shr_m r1) <= Z.log2 m1)%Z) by (apply Z.log2_le_mono; lia).
  pose proof (Z.log2_nonneg m1) as Hnn.
  destruct (shr_fexp_magnitude m1 e1 loc_Exact) as (K1 & K2 & K3); [lia | lia |].
  destruct (shr_fexp prec emax m1 e1 loc_Exact) as [r2 e2].
  simpl fst in *. simpl snd in *.
  destruct (shr_m r2) as [| m2 | m2]; [lia | | lia].
  destruct (e2 <=? emax - prec)%Z; cbn [at_least_pow2]; [lia | done].
Qed.

Lemma log2_iter_xO (m d : positive) :
  Z.log2 (Z.pos (Pos.iter xO m d)) = (Z.log2 (Z.pos m) + Z.pos d)%Z.
Proof.
  induction d as [| d IH] using Pos.peano_ind.
  - change (Pos.iter xO m 1) with (m~0)%positive.
    rewrite Pos2Z.inj_xO, Z.log2_double by lia. lia.
  - rewrite Pos.iter_succ, Pos2Z.inj_xO, Z.log2_double by lia. lia.
Qed.

(** Aligning a mantissa to a smaller exponent keeps the value. *)
Lemma shl_align_magnitude (m : positive) (e e' : Z) :
  (Z.log2 (Z.pos (fst (shl_align m e e'))) + snd (shl_align m e e')
   = Z.log2 (Z.pos m) + e)%Z /\
  ((e' <= e)%Z -> snd (shl_align m e e') = e').
Proof.
  unfold shl_align. destruct (e' - e)%Z as [| d | d] eqn:Hd; cbn [fst snd].
  - lia.
  - lia.
  - rewrite log2_iter_xO. lia.
Qed.

Lemma binary_round_magnitude (m : positive) (e : Z) :
  (-1074 < Z.log2 (Z.pos m) + 1 + e)%Z ->
  at_least_pow2 (Z.log2 (Z.pos m) + e) (binary_round prec emax false m e).
Proof.
  intros Hmag. unfold binary_round.
  destruct (shl_align_magnitude m e
              (fexp prec emax (Z.pos (digits2_pos m) + e))) as [Hal _].
  destruct (shl_align m e _) as [mz ez]. cbn [fst snd] in Hal.
  rewrite <- Hal. apply binary_round_aux_magnitude. lia.
Qed.

Lemma at_least_pow2_weaken (b b' : Z) (x : spec_float) :
  (b' <= b)%Z -> at_least_pow2 b x -> at_least_pow2 b' x.
Proof.
  intros Hb. destruct x as [s | s | | s m e]; cbn [at_least_pow2]; try done.
  destruct s; [done | lia].
Qed.

Lemma at_least_pow2_nonneg (b : Z) (x : spec_float) :
  at_least_pow2 b x -> nonneg x = true.
Proof. destruct x as [s | s | | s m e]; simpl; try done; by destruct s. Qed.

Lemma at_least_pow2_above_zero (b : Z) (x : spec_float) :
  at_least_pow2 b x -> flt f0 x = true /\ feq x f0 = false.
Proof. destruct x as [s | s | | s m e]; simpl; try done; by destruct s. Qed.

Lemma float_of_Z_magnitude (n : Z) : (1 <= n)%Z -> at_least_pow2 0 (float_of_Z n).
Proof.
  intros Hn. destruct n as [| p | p]; try lia.
  unfold float_of_Z, binary_normalize.
  pose proof (Z.log2_nonneg (Z.pos p)) as Hlog.
  eapply at_least_pow2_weaken; [| apply binary_round_magnitude]; lia.
Qed.

Lemma fmul_magnitude (x : spec_float) :
  at_least_pow2 0 x -> at_least_pow2 (-54) (fmul x f0_3).
Proof.
  destruct x as [s | s | | s m e]; cbn [at_least_pow2]; try done;
    destruct s; try done.
  intros Hx. unfold fmul, f0_3. cbn [SFmul xorb].
  assert (Hlog : (Z.log2 (Z.pos m) <= Z.log2 (Z.pos (m * 5404319552844595)))%Z)
    by (apply Z.log2_le_mono; lia).
  eapply at_least_pow2_weaken; [| apply binary_round_aux_magnitude]; lia.
Qed.

Lemma fadd_magnitude_r (b : Z) (a y : spec_float) :
  (-1074 <= b)%Z -> nonneg a = true -> at_least_pow2 b y ->
  at_least_pow2 b (fadd a y).
Proof.
  intros Hb Ha Hy.
  destruct a as [sa | sa | | sa ma ea], y as [sy | sy | | sy my ey];
    cbn [at_least_pow2 nonneg] in *; try done;
    destruct sa; try done; destruct sy; try done.
  unfold fadd. cbn [SFadd cond_Zopp].
  destruct (shl_align_magnitude ma ea (Z.min ea ey)) as [_ Ha2].
  destruct (shl_align_magnitude my ey (Z.min ea ey)) as [Hy1 Hy2].
  destruct (shl_align ma ea _) as [a' ea'], (shl_align my ey _) as [y' ey'].
  cbn [fst snd] in *. specialize (Hy2 ltac:(lia)). subst ey'.
  assert (Hlog : (Z.log2 (Z.pos y') <= Z.log2 (Z.pos (a' + y')))%Z)
    by (apply Z.log2_le_mono; lia).
  eapply at_least_pow2_weaken; [| apply binary_round_magnitude]; lia.
Qed.

Lemma fadd_magnitude_l (b : Z) (x t : spec_float) :
  (-1074 <= b)%Z -> at_least_pow2 b x -> nonneg t = true ->
  at_least_pow2 b (fadd x t).
Proof.
  intros Hb Hx Ht.
  destruct x as [sx | sx | | sx mx ex], t as [st | st | | st mt et];
    cbn [at_least_pow2 nonneg] in *; try done;
    destruct sx; try done; destruct st; try done.
  unfold fadd. cbn [SFadd cond_Zopp].
  destruct (shl_align_magnitude mx ex (Z.min ex et)) as [Hx1 Hx2].
  destruct (shl_align mx ex _) as [x' ex'], (shl_align mt et _) as [t' et'].
  cbn [fst snd] in *. specialize (Hx2 ltac:(lia)). subst ex'.
  assert (Hlog : (Z.log2 (Z.pos x') <= Z.log2 (Z.pos (x' + t')))%Z)
    by (apply Z.log2_le_mono; lia).
  eapply at_least_pow2_weaken; [| apply binary_round_magnitude]; lia.
Qed.

Lemma match_here_nil (p : pattern) :
  no_empty_alternative p = true -> match_here p [] = None.
Proof.
  induction p as [| alt p IH]; [done |]. simpl.
  intros [Halt Hp]%andb_true_iff. destruct alt; [done |]. by apply IH.
Qed.

(** A pattern that is found has at least one match to count. *)
Lemma re_search_count (p : pattern) (s : pystr) :
  no_empty_alternative p = true ->
  re_search p s = true -> (1 <= findall_count p s)%nat.
Proof.
  intros Hp. unfold findall_count. induction s as [| c s IH].
  - simpl. by rewrite (match_here_nil p Hp).
  - cbn [re_search findall_from].
    destruct (match_here p (c :: s)); [lia | exact IH].
Qed.

Lemma intent_patterns_no_empty_alternative :
  forallb (fun ip => forallb no_empty_alternative (snd ip))
    IndicBERTProcessor.intent_patterns = true.
Proof. reflexivity. Qed.

Section ScoreFacts.
Context `{PyRuntime}.
Import IndicBERTProcessor.

Let add_matches (t : pystr) (score : spec_float) (p : pattern) : spec_float :=
  fadd score (fmul (float_of_Z (Z.of_nat (findall_count p t))) f0_3).

Lemma add_matches_nonneg (t : pystr) (score : spec_float) (p : pattern) :
  nonneg score = true -> nonneg (add_matches t score p) = true.
Proof.
  intros Hs. apply fadd_nonneg; [done |].
  apply fmul_nonneg; [| done]. apply float_of_Z_nonneg. lia.
Qed.

Lemma fold_add_matches_keeps (t : pystr) (patterns : list pattern) (score : spec_float) :
  at_least_pow2 (-54) score ->
  at_least_pow2 (-54) (fold_left (add_matches t) patterns score).
Proof.
  revert score. induction patterns as [| p ps IH]; intros score Hs; [done |].
  simpl. apply IH. apply fadd_magnitude_l; [lia | done |].
  apply fmul_nonneg; [| done]. apply float_of_Z_nonneg. lia.
Qed.

Lemma fold_add_matches_found (t : pystr) (patterns : list pattern) (score : spec_float) :
  forallb no_empty_alternative patterns = true ->
  intent_matches patterns t = true ->
  nonneg score = true ->
  at_least_pow2 (-54) (fold_left (add_matches t) patterns score).
Proof.
  revert score. induction patterns as [| p ps IH]; intros score Hne Hm Hs; [done |].
  simpl in Hne, Hm. apply andb_true_iff in Hne as [Hp Hps]. simpl.
  destruct (re_search p t) eqn:Hfound.
  - apply fold_add_matches_keeps. apply fadd_magnitude_r; [lia | done |].
    apply fmul_magnitude, float_of_Z_magnitude.
    pose proof (re_search_count p t Hp Hfound). lia.
  - apply IH; [done | done | by apply add_matches_nonneg].
Qed.

(** The score of an intent one of whose patterns is found is at least
    [2^-54], and so above 0. *)
Lemma intent_score_magnitude (patterns : list pattern) (t : pystr) :
  forallb no_empty_alternative patterns = true ->
  intent_matches patterns t = true ->
  at_least_pow2 (-54) (intent_score patterns t).
Proof. intros Hne Hm. by apply fold_add_matches_found. Qed.

Lemma intent_score_unmatched (patterns : list pattern) (t : pystr) :
  intent_matches patterns t = false -> intent_score patterns t = f0.
Proof.
  intros Hm. apply intent_score_no_match.
  unfold intent_matches in Hm. induction patterns as [| p ps IH]; [done |].
  simpl in *. apply orb_false_iff in Hm as [-> Hps]. by apply IH.
Qed.

(** The entry [max] chooses is a greatest one. *)
Lemma py_max_by_is_top (scores : list (string * spec_float)) (best : string * spec_float) :
  Forall (fun e => nonneg (snd e) = true) scores ->
  py_max_by snd scores = Some best ->
  In best scores /\ is_top scores (snd best) = true.
Proof.
  intros Hall Hbest. destruct scores as [| x l]; [done |].
  injection Hbest as Hbest.
  assert (Hin : In best (x :: l)) by (rewrite <- Hbest; apply fold_pick_in).
  split; [done |].
  destruct (fold_pick_split snd l x Hall) as (l1 & l2 & Heq & H1 & H2).
  rewrite Hbest in Heq, H1, H2.
  rewrite List.Forall_forall in Hall.
  assert (Hb : nonneg (snd best) = true) by by apply Hall.
  unfold is_top. rewrite Heq, forallb_app. simpl.
  rewrite flt_irrefl. simpl. apply andb_true_iff. split.
  - apply forallb_forall. intros e He. apply negb_true_iff.
    destruct (flt (snd best) (snd e)) eqn:Hbe; [| done].
    assert (Hne : nonneg (snd e) = true).
    { apply Hall. rewrite Heq. apply in_or_app. by left. }
    rewrite Forall_forall in H1.
    pose proof (flt_trans _ _ _ Hb Hne Hb Hbe
                  (H1 e (proj2 (list_elem_of_In _ _) He))) as Hbb.
    by rewrite flt_irrefl in Hbb.
  - apply forallb_forall. intros e He. apply negb_true_iff.
    rewrite Forall_forall in H2. apply H2. by apply list_elem_of_In.
Qed.

(** What [extract_intent] returns, from the entry [max] chooses. *)
Lemma extract_intent_from_best (text : pystr) :
  exists ip,
    In ip intent_patterns /\
    is_top (intent_scores text) (intent_score (snd ip) (str_lower text)) = true /\
    extract_intent text
    = if feq (intent_score (snd ip) (str_lower text)) f0
      then ("general"%string, f0_5)
      else (fst ip, py_min2 (intent_score (snd ip) (str_lower text)) f1).
Proof.
  unfold extract_intent. rewrite py_max_by_snd.
  destruct (py_max_by snd (intent_scores text)) as [best |] eqn:Hbest.
  - destruct (py_max_by_is_top _ _ (intent_scores_nonneg text) Hbest)
      as [Hin Htop].
    unfold intent_scores in Hin. apply in_map_iff in Hin as (ip & <- & Hip).
    exists ip. simpl in *. auto.
  - unfold intent_scores, py_max_by in Hbest. simpl in Hbest. discriminate Hbest.
Qed.

(** X14. [extract_intent] returns [general] exactly when no pattern of
    the intent table occurs in the lower-cased text: a single match
    anywhere in the table is enough for a specific intent, since its
    score is not rounded down to 0. *)
Theorem general_iff_no_match (text : pystr) :
  fst (extract_intent text) = "general"%string <->
  no_intent_match (str_lower text) = true.
Proof.
  split.
  - intros Hgen.
    destruct (no_intent_match (str_lower text)) eqn:Hno; [done | exfalso].
    destruct (extract_intent_from_best text) as (ip & Hip & Htop & Hres).
    assert (Hzero : feq (intent_score (snd ip) (str_lower text)) f0 = true).
    { destruct (feq _ f0) eqn:Hz; [done |]. rewrite Hres in Hgen. simpl in Hgen.
      simpl in Hip.
      repeat (destruct Hip as [<- | Hip]; [discriminate Hgen |]). done. }
    unfold no_intent_match in Hno.
    assert (Hex : exists jp, In jp intent_patterns /\
              intent_matches (snd jp) (str_lower text) = true).
    { clear -Hno. induction intent_patterns as [| jp l IH]; [done |].
      simpl in Hno. apply andb_false_iff in Hno as [Hjp | Hl].
      - exists jp. split; [by left |]. unfold intent_matches.
        clear -Hjp. induction (snd jp) as [| p ps IHp]; [done |].
        simpl in *. apply andb_false_iff in Hjp as [Hp | Hps].
        + apply negb_false_iff in Hp. by rewrite Hp.
        + rewrite IHp by done. apply orb_true_r.
      - destruct (IH Hl) as (kp & Hk & Hm). exists kp. split; [by right | done]. }
    destruct Hex as (jp & Hjp & Hm).
    assert (Hne : forallb no_empty_alternative (snd jp) = true).
    { pose proof intent_patterns_no_empty_alternative as Hall.
      rewrite forallb_forall in Hall. by apply Hall. }
    pose proof (intent_score_magnitude _ _ Hne Hm) as Hbig.
    apply at_least_pow2_above_zero in Hbig as [Hpos _].
    assert (Hin : In (fst jp, intent_score (snd jp) (str_lower text))
                     (intent_scores text)).
    { unfold intent_scores. apply in_map_iff. by exists jp. }
    unfold is_top in Htop. rewrite forallb_forall in Htop.
    apply Htop in Hin. cbn [snd] in Hin. apply negb_true_iff in Hin.
    pose proof (intent_score_nonneg (snd ip) (str_lower text)) as Hnn.
    destruct (intent_score (snd ip) (str_lower text)) as [s | s | | s m e];
      try done; try (by destruct s).
    destruct (intent_score (snd jp) (str_lower text)) as [s' | s' | | s' m' e'];
      try done; by destruct s'.
  - intros Hno. unfold extract_intent.
    by rewrite (intent_scores_no_match text Hno).
Qed.

(** X15. An intent other than [general] is returned only for a text in
    which one of its own patterns occurs, and no intent scores higher
    than the one returned. *)
Theorem returned_intent_matches (text : pystr) :
  fst (extract_intent text) <> "general"%string ->
  exists patterns,
    In (fst (extract_intent text), patterns) intent_patterns /\
    intent_matches patterns (str_lower text) = true /\
    is_top (intent_scores text) (intent_score patterns (str_lower text)) = true.
Proof.
  intros Hne.
  destruct (extract_intent_from_best text) as (ip & Hip & Htop & Hres).
  rewrite Hres in Hne |- *.
  destruct (feq (intent_score (snd ip) (str_lower text)) f0) eqn:Hz; [done |].
  exists (snd ip). simpl. split; [by destruct ip |]. split; [| done].
  destruct (intent_matches (snd ip) (str_lower text)) eqn:Hm; [done |].
  by rewrite (intent_score_unmatched _ _ Hm) in Hz.
Qed.
End ScoreFacts.

Lemma returned_intent_matches_witness :
  exists patterns,
    In (fst (IndicBERTProcessor.extract_intent (py "mandi bhav batao")), patterns)
       IndicBERTProcessor.intent_patterns /\
    intent_matches patterns (str_lower (py "mandi bhav batao")) = true /\
    is_top (IndicBERTProcessor.intent_scores (py "mandi bhav batao"))
      (IndicBERTProcessor.intent_score patterns (str_lower (py "mandi bhav batao")))
    = true.
Proof.
  apply (returned_intent_matches (py "mandi bhav batao")).
  vm_compute. discriminate.
Defined.
